(** * Browser verification scenarios of finnegans-chatbots

    The repository holds five Playwright scripts under
    [jules-scratch/verification/].  Each one drives a browser through a fixed
    sequence of calls (navigate, fill, click, expect, screenshot) and lets any
    failure propagate as a Python exception.

    The scripts are embedded as programs of a small free monad [Prog]: a
    program is a tree of calls to the outside (the Playwright API, the clock,
    the process environment, the standard streams) whose continuation receives
    the answer.  Python exceptions are the [Throw] leaves; [try_except] and
    [try_finally] are the statements of the same name.  A program is run
    against an arbitrary world, which answers every call and may make any
    Playwright call raise; the run records the trace of calls with their
    answers.

    Conventions:
    - a Python float is read as the rational number it denotes ([Q]); the
      scripts only apply [int(...)] and mouse arithmetic to floats;
    - the exceptions of the model are the instances of [Exception] (Playwright
      errors, assertion errors, the script's own [Exception(...)]);
    - [print], [time.time()], [os.environ.get], the [page.url] property and
      the exit of the [sync_playwright()] context manager do not raise;
    - two behaviours of the Playwright library are fixed, whatever the world:
      [to_have_url] raises on an argument that is neither a string nor a
      compiled pattern, before the browser is asked ([library_rejects]), and
      leaving [sync_playwright()] stops the driver, which closes the browser
      it launched ([browser_step]). *)

From Stdlib Require Import ZArith QArith Qround String Ascii List Bool Lia.
From Stdlib Require Import Decimal DecimalString DecimalZ DecimalPos.
Import ListNotations.

Open Scope string_scope.
Open Scope list_scope.

(** ** Values exchanged with the browser *)

Record Exn : Type := mkExn { exn_class : string; exn_message : string }.

(** [str(e)] of an exception is its message. *)
Definition str_of_exn (e : Exn) : string := exn_message e.

(** The dict returned by [Locator.bounding_box()]. *)
Record Box : Type := mkBox { box_x : Q; box_y : Q; box_width : Q; box_height : Q }.

Inductive Locator : Type :=
| get_by_label (text : string) (exact : bool)
| get_by_role (role name : string)
| get_by_text (text : string)
| locator (selector : string)
| filter_has_text (l : Locator) (has_text : string)
| loc_first (l : Locator)
| loc_last (l : Locator).

(** What the scripts pass to [expect(page).to_have_url]: a string, and once
    (verify_send_message_ui.py 61) the function
    [lambda url: url.startswith(prefix)], which is not a value the library
    takes (see [library_rejects]). *)
Inductive UrlArg : Type :=
| url_is (url : string)
| url_lambda_startswith (prefix : string).

Inductive Stream : Type := stdout | stderr.

(** Calls into Playwright; each of them may raise.  Timeouts are in
    milliseconds, [None] when the call site passes none. *)
Inductive ApiCall : Type :=
| SyncPlaywrightEnter
| Launch (headless : bool)
| BrowserNewPage
| BrowserNewContext
| ContextNewPage
| Goto (url : string)
| Fill (l : Locator) (value : string)
| Click (l : Locator)
| ExpectToHaveUrl (m : UrlArg) (timeout : option Z)
| ExpectToBeVisible (l : Locator) (timeout : option Z)
| ExpectNotToBeVisible (l : Locator) (timeout : option Z)
| WaitForLoadState (state : string) (timeout : option Z)
| IsVisible (l : Locator)
| BoundingBox (l : Locator)
| MouseMove (x y : Q)
| MouseDown
| MouseUp
| Reload
| AllInnerTexts (l : Locator)
| Screenshot (path : string)
| BrowserClose.

Definition api_ret (c : ApiCall) : Type :=
  match c with
  | IsVisible _ => bool
  | BoundingBox _ => option Box
  | AllInnerTexts _ => list string
  | _ => unit
  end.

(** Calls that do not raise. *)
Inductive SysCall : Type :=
| TimeTime
| EnvironLookup (key : string)
| PyPrint (file : Stream) (text : string)
| PageUrl
| SyncPlaywrightExit.

Definition sys_ret (s : SysCall) : Type :=
  match s with
  | TimeTime => Q
  | EnvironLookup _ => option string
  | PageUrl => string
  | PyPrint _ _ | SyncPlaywrightExit => unit
  end.

(** ** Programs *)

Inductive Prog (A : Type) : Type :=
| Ret (a : A)
| Throw (e : Exn)
| Api (c : ApiCall) (k : Exn + api_ret c -> Prog A)
| Sys (s : SysCall) (k : sys_ret s -> Prog A).

Arguments Ret {A} a.
Arguments Throw {A} e.
Arguments Api {A} c k.
Arguments Sys {A} s k.

Fixpoint bind {A B : Type} (p : Prog A) (f : A -> Prog B) : Prog B :=
  match p with
  | Ret a => f a
  | Throw e => Throw e
  | Api c k => Api c (fun r => bind (k r) f)
  | Sys s k => Sys s (fun x => bind (k x) f)
  end.

Declare Scope prog_scope.
Delimit Scope prog_scope with prog.
Bind Scope prog_scope with Prog.

Notation "x <- p ;; q" := (bind p (fun x => q))
  (at level 61, p at next level, right associativity) : prog_scope.
Notation "p ;; q" := (bind p (fun _ => q))
  (at level 61, right associativity) : prog_scope.

Open Scope prog_scope.

(** [try: body except Exception as e: handler e]. *)
Fixpoint try_except {A : Type} (body : Prog A) (handler : Exn -> Prog A) : Prog A :=
  match body with
  | Ret a => Ret a
  | Throw e => handler e
  | Api c k => Api c (fun r => try_except (k r) handler)
  | Sys s k => Sys s (fun x => try_except (k x) handler)
  end.

(** [try: body finally: cleanup].  An exception of [cleanup] replaces the
    pending one, as in Python. *)
Fixpoint try_finally {A : Type} (body : Prog A) (cleanup : Prog unit) : Prog A :=
  match body with
  | Ret a => cleanup ;; Ret a
  | Throw e => cleanup ;; Throw e
  | Api c k => Api c (fun r => try_finally (k r) cleanup)
  | Sys s k => Sys s (fun x => try_finally (k x) cleanup)
  end.

(** [for x in xs: body x]. *)
Fixpoint for_each {X : Type} (xs : list X) (body : X -> Prog unit) : Prog unit :=
  match xs with
  | [] => Ret tt
  | x :: xs' => body x ;; for_each xs' body
  end.

(** A Playwright call: the answer is returned, an exception is raised. *)
Definition call (c : ApiCall) : Prog (api_ret c) :=
  Api c (fun r => match r with inl e => Throw e | inr x => Ret x end).

Definition sys (s : SysCall) : Prog (sys_ret s) := Sys s (fun x => Ret x).

(** [with sync_playwright() as p: body]. *)
Definition with_sync_playwright {A : Type} (body : Prog A) : Prog A :=
  call SyncPlaywrightEnter ;;
  try_finally body (sys SyncPlaywrightExit).

(** The statements of the scripts. *)
Definition chromium_launch (headless : bool) : Prog unit := call (Launch headless).
Definition browser_new_page : Prog unit := call BrowserNewPage.
Definition browser_new_context : Prog unit := call BrowserNewContext.
Definition context_new_page : Prog unit := call ContextNewPage.
Definition browser_close : Prog unit := call BrowserClose.
Definition page_goto (url : string) : Prog unit := call (Goto url).
Definition page_reload : Prog unit := call Reload.
Definition fill (l : Locator) (value : string) : Prog unit := call (Fill l value).
Definition click (l : Locator) : Prog unit := call (Click l).
Definition is_visible (l : Locator) : Prog bool := call (IsVisible l).
Definition bounding_box (l : Locator) : Prog (option Box) := call (BoundingBox l).
Definition all_inner_texts (l : Locator) : Prog (list string) := call (AllInnerTexts l).
Definition expect_to_have_url (m : UrlArg) (timeout : option Z) : Prog unit :=
  call (ExpectToHaveUrl m timeout).
Definition expect_to_be_visible (l : Locator) (timeout : option Z) : Prog unit :=
  call (ExpectToBeVisible l timeout).
Definition expect_not_to_be_visible (l : Locator) (timeout : option Z) : Prog unit :=
  call (ExpectNotToBeVisible l timeout).
Definition wait_for_load_state (state : string) (timeout : option Z) : Prog unit :=
  call (WaitForLoadState state timeout).
Definition mouse_move (x y : Q) : Prog unit := call (MouseMove x y).
Definition mouse_down : Prog unit := call MouseDown.
Definition mouse_up : Prog unit := call MouseUp.
Definition page_screenshot (path : string) : Prog unit := call (Screenshot path).
Definition time_time : Prog Q := sys TimeTime.
Definition page_url : Prog string := sys PageUrl.
Definition print (file : Stream) (text : string) : Prog unit := sys (PyPrint file text).

(** [os.environ.get(key, default)]. *)
Definition environ_get (key default : string) : Prog string :=
  v <- sys (EnvironLookup key) ;;
  Ret (match v with Some s => s | None => default end).

(** ** Pure helpers of the scripts *)

(** [int(x)] on a float truncates toward zero. *)
Definition int_of_float (x : Q) : Z := Z.quot (Qnum x) (Zpos (Qden x)).

(** [str(n)] on an int: decimal digits, with a leading minus sign. *)
Definition str_of_int (n : Z) : string := NilZero.string_of_int (Z.to_int n).

(** The double quote character, for selectors that contain it. *)
Definition dquote : string := String (ascii_of_nat 34) EmptyString.

(** ['[role="status"]'] *)
Definition role_status_selector : string := "[role=" ++ dquote ++ "status" ++ dquote ++ "]".

(** ['a[href^="/dashboard/contacts/"]'] *)
Definition contact_link_selector : string :=
  "a[href^=" ++ dquote ++ "/dashboard/contacts/" ++ dquote ++ "]".

(** The test identity of a registration scenario. *)
Record Identity : Type := mkIdentity { name : string; email : string; password : string }.

(** verify_login.py 11-14, verify_login_v2.py 12-15, verify_final.py 10-13:
    the three scripts generate their credentials with the same four lines. *)
Definition generate_credentials (now : Q) : Identity :=
  let unique_id := int_of_float now in
  {| email := "test_user_" ++ str_of_int unique_id ++ "@example.com";
     password := "password123";
     name := "Test User" |}.

(** verify_send_message_ui.py 11. *)
Definition unique_email (now : Q) : string :=
  "test.user." ++ str_of_int (int_of_float now) ++ "@example.com".

(** ** The scenarios *)

(** verify_login.py *)
Module verify_login.

Definition run_verification : Prog unit :=
  with_sync_playwright (
    chromium_launch true ;;
    browser_new_page ;;
    now <- time_time ;;
    let id := generate_credentials now in
    base_url <- environ_get "BASE_URL" "http://localhost:3000" ;;
    page_goto (base_url ++ "/register") ;;
    fill (get_by_label "Name" false) (name id) ;;
    fill (get_by_label "Email" false) (email id) ;;
    fill (get_by_label "Password" false) (password id) ;;
    click (get_by_role "button" "Create account") ;;
    expect_to_have_url (url_is (base_url ++ "/login")) (Some 10000%Z) ;;
    fill (get_by_label "Email" false) (email id) ;;
    fill (get_by_label "Password" false) (password id) ;;
    click (get_by_role "button" "Sign in") ;;
    expect_to_have_url (url_is (base_url ++ "/dashboard")) (Some 10000%Z) ;;
    expect_to_be_visible (get_by_text "Contactos Totales") None ;;
    page_screenshot "jules-scratch/verification/dashboard_after_login.png" ;;
    browser_close).

End verify_login.

(** verify_final.py *)
Module verify_final.

Definition run_verification : Prog unit :=
  with_sync_playwright (
    chromium_launch true ;;
    browser_new_page ;;
    now <- time_time ;;
    let id := generate_credentials now in
    base_url <- environ_get "BASE_URL" "http://localhost:3000" ;;
    page_goto (base_url ++ "/register") ;;
    fill (get_by_label "Name" false) (name id) ;;
    fill (get_by_label "Email" false) (email id) ;;
    fill (get_by_label "Password" false) (password id) ;;
    click (get_by_role "button" "Create account") ;;
    expect_to_have_url (url_is (base_url ++ "/login")) (Some 15000%Z) ;;
    print stdout "Registration successful, redirected to login." ;;
    fill (get_by_label "Email" false) (email id) ;;
    fill (get_by_label "Password" false) (password id) ;;
    click (get_by_role "button" "Sign in") ;;
    expect_to_have_url (url_is (base_url ++ "/dashboard")) (Some 15000%Z) ;;
    print stdout "Login successful, redirected to dashboard." ;;
    expect_to_be_visible (get_by_text "Contactos Totales") None ;;
    print stdout "Dashboard content verified." ;;
    page_screenshot "jules-scratch/verification/dashboard_after_login.png" ;;
    print stdout "Successfully logged in and verified dashboard." ;;
    browser_close).

End verify_final.

(** verify_login_v2.py 29 *)
Definition success_toast : Locator :=
  filter_has_text (locator role_status_selector) "Registration successful!".

(** verify_login_v2.py 26-34: the body of the [try]. *)
Definition check_registration (base_url : string) : Prog unit :=
  expect_to_be_visible success_toast (Some 10000%Z) ;;
  expect_to_have_url (url_is (base_url ++ "/login")) (Some 5000%Z) ;;
  print stdout "Registration successful and redirected to login.".

(** verify_login_v2.py 39-46: the inner [try] of the handler. *)
Definition report_toasts : Prog unit :=
  try_except
    (toasts <- all_inner_texts (locator role_status_selector) ;;
     match toasts with
     | [] => Ret tt
     | _ :: _ =>
         print stderr "Found toast messages:" ;;
         for_each toasts (fun text => print stderr text)
     end)
    (fun toast_error =>
       print stderr ("Could not retrieve toast messages: " ++ str_of_exn toast_error)).

(** verify_login_v2.py 36-52: the [except Exception:] block; the bare
    [raise] re-raises the exception being handled. *)
Definition registration_failed (e : Exn) : Prog unit :=
  print stderr "Registration did not succeed as expected." ;;
  report_toasts ;;
  url <- page_url ;;
  print stderr ("Current URL is: " ++ url) ;;
  Throw e.

(** verify_login_v2.py *)
Module verify_login_v2.

Definition run_verification : Prog unit :=
  with_sync_playwright (
    chromium_launch true ;;
    browser_new_page ;;
    now <- time_time ;;
    let id := generate_credentials now in
    base_url <- environ_get "BASE_URL" "http://localhost:3000" ;;
    page_goto (base_url ++ "/register") ;;
    fill (get_by_label "Name" false) (name id) ;;
    fill (get_by_label "Email" false) (email id) ;;
    fill (get_by_label "Password" false) (password id) ;;
    click (get_by_role "button" "Create account") ;;
    try_except (check_registration base_url) registration_failed ;;
    fill (get_by_label "Email" false) (email id) ;;
    fill (get_by_label "Password" false) (password id) ;;
    click (get_by_role "button" "Sign in") ;;
    expect_to_have_url (url_is (base_url ++ "/dashboard")) (Some 10000%Z) ;;
    expect_to_be_visible (get_by_text "Contactos Totales") None ;;
    page_screenshot "jules-scratch/verification/dashboard_after_login.png" ;;
    print stdout "Successfully logged in and verified dashboard." ;;
    browser_close).

End verify_login_v2.

(** verify_flow_builder.py 37-43.  [bounding_box()] returns a dict with four
    keys or [None], so the test [source_bounds and target_bounds] holds when
    both are dicts. *)
Definition drag_and_drop (source_bounds target_bounds : option Box) : Prog unit :=
  match source_bounds, target_bounds with
  | Some sb, Some tb =>
      mouse_move (box_x sb + box_width sb / 2)%Q (box_y sb + box_height sb / 2)%Q ;;
      mouse_down ;;
      mouse_move (box_x tb + 200)%Q (box_y tb + 200)%Q ;;
      mouse_up
  | _, _ => Throw (mkExn "Exception" "Could not find source or target for drag and drop")
  end.

(** verify_flow_builder.py *)
Module verify_flow_builder.

(** The function of the script; the Playwright handle it receives is
    implicit in the model. *)
Definition run : Prog unit :=
  chromium_launch true ;;
  browser_new_context ;;
  context_new_page ;;
  try_finally (
    page_goto "http://localhost:3000/login" ;;
    fill (get_by_label "Email" false) "test@test.com" ;;
    fill (get_by_label "Password" false) "password" ;;
    click (get_by_role "button" "Sign in") ;;
    expect_to_have_url (url_is "http://localhost:3000/dashboard") None ;;
    page_goto "http://localhost:3000/dashboard/flows" ;;
    click (get_by_role "button" "Crear flujo") ;;
    expect_to_be_visible (get_by_text "Nodos") None ;;
    let source_selector := "div[data-node-type='message']" in
    let target_selector := ".react-flow__pane" in
    let source := locator source_selector in
    let target := locator target_selector in
    source_bounds <- bounding_box source ;;
    target_bounds <- bounding_box target ;;
    drag_and_drop source_bounds target_bounds ;;
    click (loc_last (locator ".react-flow__node-message")) ;;
    click (get_by_label "Use Template" false) ;;
    page_screenshot "jules-scratch/verification/verification.png")
  browser_close.

(** The module-level [with sync_playwright() as playwright:] statement. *)
Definition main : Prog unit :=
  with_sync_playwright run.

End verify_flow_builder.

(** verify_send_message_ui.py 40-55: the branch taken when the empty state
    is shown. *)
Definition create_contact : Prog unit :=
  click (get_by_role "button" "Nuevo contacto") ;;
  expect_to_be_visible (get_by_role "heading" "Nuevo Contacto") None ;;
  fill (get_by_label "Nombre y Apellido" false) "Test Contact" ;;
  fill (get_by_label "Teléfono" false) "1234567890" ;;
  click (get_by_role "button" "Guardar Contacto") ;;
  expect_not_to_be_visible (get_by_role "heading" "Nuevo Contacto") (Some 10000%Z) ;;
  page_reload ;;
  wait_for_load_state "networkidle" (Some 15000%Z) ;;
  expect_to_be_visible (locator "table") (Some 10000%Z).

(** verify_send_message_ui.py *)
Module verify_send_message_ui.

(** The function of the script; the Playwright handle it receives is
    implicit in the model. *)
Definition run_verification : Prog unit :=
  chromium_launch true ;;
  browser_new_context ;;
  context_new_page ;;
  try_finally (
    now <- time_time ;;
    let unique_email := unique_email now in
    page_goto "http://localhost:3000/register" ;;
    fill (get_by_label "Nombre completo" false) "Test User" ;;
    fill (get_by_label "Correo electrónico" false) unique_email ;;
    fill (get_by_label "Contraseña" true) "password123" ;;
    fill (get_by_label "Confirmar contraseña" false) "password123" ;;
    click (get_by_role "button" "Crear cuenta") ;;
    expect_to_have_url (url_is "http://localhost:3000/login") (Some 15000%Z) ;;
    fill (get_by_label "Correo electrónico" false) unique_email ;;
    fill (get_by_label "Contraseña" true) "password123" ;;
    click (get_by_role "button" "Iniciar sesión") ;;
    expect_to_have_url (url_is "http://localhost:3000/dashboard") (Some 15000%Z) ;;
    page_goto "http://localhost:3000/dashboard/contacts" ;;
    wait_for_load_state "networkidle" (Some 15000%Z) ;;
    empty <- is_visible (get_by_text "Aún no tienes contactos") ;;
    (if empty then create_contact else Ret tt) ;;
    click (loc_first (locator contact_link_selector)) ;;
    expect_to_have_url (url_lambda_startswith "http://localhost:3000/dashboard/contacts/")
                       (Some 15000%Z) ;;
    expect_to_be_visible (get_by_text "Enviar mensaje directo") None ;;
    page_screenshot "jules-scratch/verification/verification.png")
  browser_close.

(** The module-level [with sync_playwright() as playwright:] statement. *)
Definition main : Prog unit :=
  with_sync_playwright run_verification.

End verify_send_message_ui.

(** The five scripts of the repository, each with what running it executes. *)
Inductive Scenario : Type :=
| VerifyFinal
| VerifyFlowBuilder
| VerifyLogin
| VerifyLoginV2
| VerifySendMessageUi.

Definition script (s : Scenario) : Prog unit :=
  match s with
  | VerifyFinal => verify_final.run_verification
  | VerifyFlowBuilder => verify_flow_builder.main
  | VerifyLogin => verify_login.run_verification
  | VerifyLoginV2 => verify_login_v2.run_verification
  | VerifySendMessageUi => verify_send_message_ui.main
  end.

(** ** Running a program against a world *)

(** A world of state [W] answers every call and moves to its next state. *)
Record World (W : Type) : Type := mkWorld {
  respond : forall c : ApiCall, W -> W * (Exn + api_ret c);
  observe : forall s : SysCall, W -> W * sys_ret s
}.

Arguments respond {W} _ c _.
Arguments observe {W} _ s _.

Inductive Event : Type :=
| ApiEv (c : ApiCall) (r : Exn + api_ret c)
| SysEv (s : SysCall) (x : sys_ret s).

Record Run (W A : Type) : Type := mkRun {
  trace : list Event;
  final : W;
  result : Exn + A
}.

Arguments mkRun {W A} trace final result.
Arguments trace {W A} r.
Arguments final {W A} r.
Arguments result {W A} r.

Definition after {W A : Type} (ev : Event) (r : Run W A) : Run W A :=
  mkRun (ev :: trace r) (final r) (result r).

(** playwright-python, [to_have_url]: "value must be a string or regular
    expression". *)
Definition callable_error : Exn :=
  mkExn "Error" "value must be a string or regular expression".

(** The argument check the library makes before it asks the browser:
    [to_have_url] takes a string or a compiled pattern and raises on any
    other value, so on the function of verify_send_message_ui.py 61. *)
Definition library_rejects (c : ApiCall) : option Exn :=
  match c with
  | ExpectToHaveUrl (url_lambda_startswith _) _ => Some callable_error
  | _ => None
  end.

(** The answer to a call: the library's refusal, else what the world
    answers. *)
Definition answer {W : Type} (env : World W) (c : ApiCall) (w : W)
  : W * (Exn + api_ret c) :=
  match library_rejects c with
  | Some e => (w, inl e)
  | None => respond env c w
  end.

Fixpoint execute {W A : Type} (env : World W) (p : Prog A) (w : W) : Run W A :=
  match p with
  | Ret a => mkRun [] w (inr a)
  | Throw e => mkRun [] w (inl e)
  | Api c k =>
      let (w', r) := answer env c w in
      after (ApiEv c r) (execute env (k r) w')
  | Sys s k =>
      let (w', x) := observe env s w in
      after (SysEv s x) (execute env (k x) w')
  end.

(** ** Observations on traces *)

(** A call that raised. *)
Definition failed (ev : Event) : bool :=
  match ev with
  | ApiEv _ (inl _) => true
  | _ => false
  end.

(** The event [ev] is the call [c] raising [e]. *)
Definition raised (c : ApiCall) (e : Exn) (ev : Event) : Prop :=
  match ev with
  | ApiEv c' (inl e') => c' = c /\ e' = e
  | _ => False
  end.

(** The event [ev] is the call [c] returning [x]. *)
Definition returned (c : ApiCall) (x : api_ret c) (ev : Event) : Prop :=
  ev = ApiEv c (inr x).

(** The Playwright calls of a trace, in order. *)
Fixpoint api_calls (tr : list Event) : list ApiCall :=
  match tr with
  | [] => []
  | ApiEv c _ :: tr' => c :: api_calls tr'
  | SysEv _ _ :: tr' => api_calls tr'
  end.

Definition is_screenshot (ev : Event) : bool :=
  match ev with
  | ApiEv (Screenshot _) _ => true
  | _ => false
  end.

Definition is_browser_close (ev : Event) : bool :=
  match ev with
  | ApiEv BrowserClose _ => true
  | _ => false
  end.

Definition is_launch (ev : Event) : bool :=
  match ev with
  | ApiEv (Launch _) (inr _) => true
  | _ => false
  end.

(** What a script does after its screenshot: report on stdout and release
    the browser and the Playwright driver. *)
Definition is_teardown (ev : Event) : bool :=
  match ev with
  | ApiEv BrowserClose _ => true
  | SysEv (PyPrint _ _) _ => true
  | SysEv SyncPlaywrightExit _ => true
  | _ => false
  end.

(** Every screenshot of the trace comes after successful calls only and is
    followed by teardown only. *)
Definition screenshot_last (tr : list Event) : Prop :=
  forall pre ev post,
    tr = pre ++ ev :: post ->
    is_screenshot ev = true ->
    forallb (fun e => negb (failed e)) pre = true /\ forallb is_teardown post = true.

(** The same, by one pass over the trace; [ok] tells that no call has failed
    so far. *)
Fixpoint screenshot_check (ok : bool) (tr : list Event) : bool :=
  match tr with
  | [] => true
  | ev :: tr' =>
      if is_screenshot ev then ok && forallb is_teardown tr'
      else screenshot_check (ok && negb (failed ev)) tr'
  end.

(** The screenshot call or [browser.close()] raising. *)
Definition failed_at_the_end (ev : Event) : bool :=
  failed ev && (is_screenshot ev || is_browser_close ev).

(** A run passes when its screenshot is last, a successful run took one, and
    a failed run took one only if it failed at the end. *)
Definition screenshot_ok {W : Type} (r : Run W unit) : bool :=
  screenshot_check true (trace r)
  && match result r with
     | inl _ => implb (existsb is_screenshot (trace r))
                      (existsb failed_at_the_end (trace r))
     | inr _ => existsb is_screenshot (trace r)
     end.

(** The paths given to [page.screenshot], in order. *)
Fixpoint screenshot_paths (tr : list Event) : list string :=
  match tr with
  | [] => []
  | ApiEv (Screenshot path) _ :: tr' => path :: screenshot_paths tr'
  | _ :: tr' => screenshot_paths tr'
  end.

(** The path each script passes to [page.screenshot]. *)
Definition artifact_path (s : Scenario) : string :=
  match s with
  | VerifyFinal | VerifyLogin | VerifyLoginV2 =>
      "jules-scratch/verification/dashboard_after_login.png"
  | VerifyFlowBuilder | VerifySendMessageUi =>
      "jules-scratch/verification/verification.png"
  end.

(** The scenario [s] can write a screenshot to [path]. *)
Definition writes_to (s : Scenario) (path : string) : Prop :=
  exists (W : Type) (env : World W) (w : W),
    In path (screenshot_paths (trace (execute env (script s) w))).

(** The URLs a run navigates to or waits for, in order. *)
Fixpoint target_urls (tr : list Event) : list string :=
  match tr with
  | [] => []
  | ApiEv (Goto url) _ :: tr' => url :: target_urls tr'
  | ApiEv (ExpectToHaveUrl (url_is url) _) _ :: tr' => url :: target_urls tr'
  | ApiEv (ExpectToHaveUrl (url_lambda_startswith url) _) _ :: tr' => url :: target_urls tr'
  | _ :: tr' => target_urls tr'
  end.

(** The value of the environment variable [key] as the run read it. *)
Fixpoint environ_read (key : string) (tr : list Event) : option (option string) :=
  match tr with
  | [] => None
  | SysEv (EnvironLookup k) v :: tr' =>
      if String.eqb k key then Some v else environ_read key tr'
  | _ :: tr' => environ_read key tr'
  end.

(** The origin a run was asked to use: [BASE_URL] when the run read it and it
    was set, the default otherwise. *)
Definition base_url_of (tr : list Event) : string :=
  match environ_read "BASE_URL" tr with
  | Some (Some url) => url
  | _ => "http://localhost:3000"
  end.

(** Every URL of the run is under the origin [base]. *)
Definition navigates_under (base : string) (tr : list Event) : bool :=
  forallb (String.prefix base) (target_urls tr).

Definition is_page_created (ev : Event) : bool :=
  match ev with
  | ApiEv ContextNewPage (inr _) => true
  | _ => false
  end.

(** [browser.close()] has been called if the page was created. *)
Definition closes_created_page (tr : list Event) : bool :=
  if existsb is_page_created tr then existsb is_browser_close tr else true.

(** The wait points: URL waits, visibility waits and load-state waits, with
    the timeout the call site passes. *)
Definition wait_timeout (ev : Event) : option (option Z) :=
  match ev with
  | ApiEv (ExpectToHaveUrl _ t) _
  | ApiEv (ExpectToBeVisible _ t) _
  | ApiEv (ExpectNotToBeVisible _ t) _
  | ApiEv (WaitForLoadState _ t) _ => Some t
  | _ => None
  end.

Definition in_5_to_15_seconds (ms : Z) : bool :=
  (5000 <=? ms)%Z && (ms <=? 15000)%Z.

(** A wait point with an explicit timeout between 5 and 15 seconds. *)
Definition wait_is_bounded (ev : Event) : bool :=
  match wait_timeout ev with
  | Some (Some ms) => in_5_to_15_seconds ms
  | Some None => false
  | None => true
  end.

(** A timeout, when one is passed, is between 5 and 15 seconds. *)
Definition explicit_timeout_in_range (ev : Event) : bool :=
  match wait_timeout ev with
  | Some (Some ms) => in_5_to_15_seconds ms
  | _ => true
  end.

(** What the failure handler of verify_login_v2.py does besides re-raising:
    it prints, reads the toast texts and reads the page URL. *)
Definition is_diagnostic (ev : Event) : bool :=
  match ev with
  | SysEv (PyPrint _ _) _ => true
  | SysEv PageUrl _ => true
  | ApiEv (AllInnerTexts _) _ => true
  | _ => false
  end.

Definition is_diagnostic_or_exit (ev : Event) : bool :=
  match ev with
  | SysEv SyncPlaywrightExit _ => true
  | _ => is_diagnostic ev
  end.

Fixpoint locator_eqb (a b : Locator) : bool :=
  match a, b with
  | get_by_label t1 x1, get_by_label t2 x2 => String.eqb t1 t2 && Bool.eqb x1 x2
  | get_by_role r1 n1, get_by_role r2 n2 => String.eqb r1 r2 && String.eqb n1 n2
  | get_by_text t1, get_by_text t2 => String.eqb t1 t2
  | locator s1, locator s2 => String.eqb s1 s2
  | filter_has_text l1 t1, filter_has_text l2 t2 => locator_eqb l1 l2 && String.eqb t1 t2
  | loc_first l1, loc_first l2 => locator_eqb l1 l2
  | loc_last l1, loc_last l2 => locator_eqb l1 l2
  | _, _ => false
  end.

(** verify_login_v2.py 30 *)
Definition toast_check : ApiCall := ExpectToBeVisible success_toast (Some 10000%Z).

Definition is_toast_check (c : ApiCall) : bool :=
  match c with
  | ExpectToBeVisible l _ => locator_eqb l success_toast
  | _ => false
  end.

(** The exception of the first toast check that raised, and the events
    that follow it. *)
Fixpoint first_toast_failure (tr : list Event) : option (Exn * list Event) :=
  match tr with
  | [] => None
  | ApiEv c (inl e) :: tr' =>
      if is_toast_check c then Some (e, tr') else first_toast_failure tr'
  | _ :: tr' => first_toast_failure tr'
  end.

(** The steps of the login: filling the credentials into the login form is
    told from the registration by the click on the sign-in button. *)
Definition is_sign_in (ev : Event) : bool :=
  match ev with
  | ApiEv (Click (get_by_role _ n)) _ => String.eqb n "Sign in"
  | _ => false
  end.

(** The first clock reading of the run. *)
Fixpoint clock_reading (tr : list Event) : option Q :=
  match tr with
  | [] => None
  | SysEv TimeTime now :: _ => Some now
  | _ :: tr' => clock_reading tr'
  end.

(** The identity a scenario registers, from the clock reading; the flow
    builder scenario logs in with a hard-coded account and registers none. *)
Definition identity (s : Scenario) (now : Q) : option Identity :=
  match s with
  | VerifyFinal | VerifyLogin | VerifyLoginV2 => Some (generate_credentials now)
  | VerifySendMessageUi =>
      Some {| name := "Test User"; email := unique_email now; password := "password123" |}
  | VerifyFlowBuilder => None
  end.

(** The form field a label stands for. *)
Inductive Field : Type := NameField | EmailField | PasswordField.

Definition field_of_label (label : string) : option Field :=
  if String.eqb label "Name" || String.eqb label "Nombre completo" then Some NameField
  else if String.eqb label "Email" || String.eqb label "Correo electrónico" then Some EmailField
  else if String.eqb label "Password" || String.eqb label "Contraseña"
          || String.eqb label "Confirmar contraseña" then Some PasswordField
  else None.

(** A fill of a name, email or password field types the value of [id]. *)
Definition fill_matches (id : Identity) (ev : Event) : bool :=
  match ev with
  | ApiEv (Fill (get_by_label label _) value) _ =>
      match field_of_label label with
      | Some NameField => String.eqb value (name id)
      | Some EmailField => String.eqb value (email id)
      | Some PasswordField => String.eqb value (password id)
      | None => true
      end
  | _ => true
  end.

Definition is_fill (ev : Event) : bool :=
  match ev with
  | ApiEv (Fill _ _) _ => true
  | _ => false
  end.

(** Every credential a run of [s] types is the one generated from its clock
    reading, and nothing is typed before the clock is read.  The flow builder
    scenario generates no identity. *)
Definition types_identity (s : Scenario) (tr : list Event) : bool :=
  match s with
  | VerifyFlowBuilder => true
  | _ =>
      match clock_reading tr with
      | Some now =>
          match identity s now with
          | Some id => forallb (fill_matches id) tr
          | None => true
          end
      | None => negb (existsb is_fill tr)
      end
  end.

(** verify_send_message_ui.py 39 *)
Definition empty_state : Locator := get_by_text "Aún no tienes contactos".

(** The answer of an [is_visible()] call. *)
Definition visible_answer (ev : Event) : option bool :=
  match ev with
  | ApiEv (IsVisible _) (inr b) => Some b
  | _ => None
  end.

Definition says_not_visible (ev : Event) : bool :=
  match visible_answer ev with
  | Some false => true
  | _ => false
  end.

(** The first step of [create_contact]. *)
Definition opens_new_contact_form (ev : Event) : bool :=
  match ev with
  | ApiEv (Click (get_by_role _ n)) _ => String.eqb n "Nuevo contacto"
  | _ => false
  end.

(** When the empty state is not visible, the contact form is not opened. *)
Definition skips_creation (tr : list Event) : bool :=
  implb (existsb says_not_visible tr) (negb (existsb opens_new_contact_form tr)).

(** [browser.close()] is called on success; when the run fails it was not
    called, unless the call itself is what failed. *)
Definition closes_on_success_only {W : Type} (r : Run W unit) : bool :=
  match result r with
  | inl _ => implb (existsb is_browser_close (trace r))
                   (existsb (fun ev => failed ev && is_browser_close ev) (trace r))
  | inr _ => existsb is_browser_close (trace r)
  end.

(** The calls up to the contacts page, verify_send_message_ui.py 5-36 and
    the [with] statement of line 72. *)
Definition open_contacts_calls (unique_email : string) : list ApiCall :=
  [ SyncPlaywrightEnter;
    Launch true;
    BrowserNewContext;
    ContextNewPage;
    Goto "http://localhost:3000/register";
    Fill (get_by_label "Nombre completo" false) "Test User";
    Fill (get_by_label "Correo electrónico" false) unique_email;
    Fill (get_by_label "Contraseña" true) "password123";
    Fill (get_by_label "Confirmar contraseña" false) "password123";
    Click (get_by_role "button" "Crear cuenta");
    ExpectToHaveUrl (url_is "http://localhost:3000/login") (Some 15000%Z);
    Fill (get_by_label "Correo electrónico" false) unique_email;
    Fill (get_by_label "Contraseña" true) "password123";
    Click (get_by_role "button" "Iniciar sesión");
    ExpectToHaveUrl (url_is "http://localhost:3000/dashboard") (Some 15000%Z);
    Goto "http://localhost:3000/dashboard/contacts";
    WaitForLoadState "networkidle" (Some 15000%Z) ].

(** The calls of [create_contact], verify_send_message_ui.py 40-55. *)
Definition create_contact_calls : list ApiCall :=
  [ Click (get_by_role "button" "Nuevo contacto");
    ExpectToBeVisible (get_by_role "heading" "Nuevo Contacto") None;
    Fill (get_by_label "Nombre y Apellido" false) "Test Contact";
    Fill (get_by_label "Teléfono" false) "1234567890";
    Click (get_by_role "button" "Guardar Contacto");
    ExpectNotToBeVisible (get_by_role "heading" "Nuevo Contacto") (Some 10000%Z);
    Reload;
    WaitForLoadState "networkidle" (Some 15000%Z);
    ExpectToBeVisible (locator "table") (Some 10000%Z) ].

(** The calls both branches continue with, verify_send_message_ui.py 58-61,
    and the [browser.close()] of the [finally]. *)
Definition contact_link_calls : list ApiCall :=
  [ Click (loc_first (locator contact_link_selector));
    ExpectToHaveUrl (url_lambda_startswith "http://localhost:3000/dashboard/contacts/")
                    (Some 15000%Z);
    BrowserClose ].

(** verify_send_message_ui.py 64: the check of the send-message marker. *)
Definition checks_marker (ev : Event) : bool :=
  match ev with
  | ApiEv (ExpectToBeVisible (get_by_text text) _) _ =>
      String.eqb text "Enviar mensaje directo"
  | _ => false
  end.

(** The run stops before the marker: it fails, without the marker check and
    without a screenshot. *)
Definition stops_before_marker {W : Type} (r : Run W unit) : bool :=
  match result r with
  | inl _ => negb (existsb checks_marker (trace r))
             && negb (existsb is_screenshot (trace r))
  | inr _ => false
  end.

(** The browser of a run: not launched, open, or closed. *)
Inductive BrowserState : Type := NotLaunched | BrowserOpen | BrowserClosed.

(** [launch] opens the browser when it returns; [browser.close()] closes it
    when it returns; leaving [sync_playwright()] stops the driver, which
    closes the browser it launched. *)
Definition browser_step (st : BrowserState) (ev : Event) : BrowserState :=
  match ev with
  | ApiEv (Launch _) (inr _) => BrowserOpen
  | ApiEv BrowserClose (inr _) | SysEv SyncPlaywrightExit _ =>
      match st with
      | BrowserOpen => BrowserClosed
      | _ => st
      end
  | _ => st
  end.

(** The state of the browser when the run ends. *)
Definition browser_after (tr : list Event) : BrowserState :=
  fold_left browser_step tr NotLaunched.

(** The run does not end with the browser open, and ends with it closed
    when it was launched. *)
Definition browser_released (tr : list Event) : bool :=
  match browser_after tr with
  | NotLaunched => negb (existsb is_launch tr)
  | BrowserOpen => false
  | BrowserClosed => true
  end.

(** ** Simulated worlds *)

(** A world without state: the clock, the environment, the page content and
    the calls that raise are fixed. *)
Record Sim : Type := mkSim {
  sim_now : Q;
  sim_base_url : option string;
  sim_raises : ApiCall -> option Exn;
  sim_visible : bool;
  sim_texts : list string;
  sim_url : string;
  sim_box : option Box
}.

Definition sim_answer (cfg : Sim) (c : ApiCall) : api_ret c :=
  match c return api_ret c with
  | IsVisible _ => sim_visible cfg
  | BoundingBox _ => sim_box cfg
  | AllInnerTexts _ => sim_texts cfg
  | _ => tt
  end.

Definition sim_observe (cfg : Sim) (s : SysCall) : sys_ret s :=
  match s return sys_ret s with
  | TimeTime => sim_now cfg
  | EnvironLookup key => if String.eqb key "BASE_URL" then sim_base_url cfg else None
  | PageUrl => sim_url cfg
  | PyPrint _ _ => tt
  | SyncPlaywrightExit => tt
  end.

Definition sim_world (cfg : Sim) : World unit :=
  {| respond := fun c w =>
       (w, match sim_raises cfg c with
           | Some e => inl e
           | None => inr (sim_answer cfg c)
           end);
     observe := fun s w => (w, sim_observe cfg s) |}.

Definition timeout_error : Exn :=
  mkExn "TimeoutError" "Timeout exceeded.".

Definition target_closed_error : Exn :=
  mkExn "Error" "Target page, context or browser has been closed".

(** The world lets every call succeed; the contact list is empty; [BASE_URL]
    is unset. *)
Definition healthy (now : Q) : Sim :=
  {| sim_now := now;
     sim_base_url := None;
     sim_raises := fun _ => None;
     sim_visible := true;
     sim_texts := [];
     sim_url := "http://localhost:3000/dashboard";
     sim_box := Some (mkBox 10 20 100 40) |}.

(** As [healthy], with one contact already listed. *)
Definition with_contacts (now : Q) : Sim :=
  {| sim_now := now;
     sim_base_url := None;
     sim_raises := fun _ => None;
     sim_visible := false;
     sim_texts := [];
     sim_url := "http://localhost:3000/dashboard";
     sim_box := Some (mkBox 10 20 100 40) |}.

(** As [healthy], with [BASE_URL] set. *)
Definition staging (now : Q) : Sim :=
  {| sim_now := now;
     sim_base_url := Some "http://staging.example.com";
     sim_raises := fun _ => None;
     sim_visible := true;
     sim_texts := [];
     sim_url := "http://staging.example.com/dashboard";
     sim_box := Some (mkBox 10 20 100 40) |}.

(** The registration never redirects to the login page. *)
Definition no_redirect (now : Q) : Sim :=
  {| sim_now := now;
     sim_base_url := None;
     sim_raises := fun c =>
       match c with
       | ExpectToHaveUrl _ _ => Some timeout_error
       | _ => None
       end;
     sim_visible := true;
     sim_texts := [];
     sim_url := "http://localhost:3000/register";
     sim_box := Some (mkBox 10 20 100 40) |}.

(** The success toast never shows and the toast texts cannot be read. *)
Definition no_toast (now : Q) : Sim :=
  {| sim_now := now;
     sim_base_url := None;
     sim_raises := fun c =>
       match c with
       | ExpectToBeVisible _ (Some _) => Some timeout_error
       | AllInnerTexts _ => Some target_closed_error
       | _ => None
       end;
     sim_visible := true;
     sim_texts := [];
     sim_url := "http://localhost:3000/register";
     sim_box := Some (mkBox 10 20 100 40) |}.

(** The success toast never shows; an error toast is on the page. *)
Definition error_toast (now : Q) : Sim :=
  {| sim_now := now;
     sim_base_url := None;
     sim_raises := fun c =>
       match c with
       | ExpectToBeVisible _ (Some _) => Some timeout_error
       | _ => None
       end;
     sim_visible := true;
     sim_texts := ["Email already registered"; "Try again"];
     sim_url := "http://localhost:3000/register";
     sim_box := Some (mkBox 10 20 100 40) |}.

(** Two instants of the same second. *)
Definition quarter_past : Q := 6800000001 # 4.
Definition quarter_to : Q := 6800000003 # 4.

(** ** Further observations *)

(** The occurrences of a character in a string. *)
Fixpoint count_char (c : ascii) (s : string) : nat :=
  match s with
  | EmptyString => 0
  | String a s' => (if Ascii.eqb a c then 1 else 0) + count_char c s'
  end.

Definition is_exit (ev : Event) : bool :=
  match ev with
  | SysEv SyncPlaywrightExit _ => true
  | _ => false
  end.

(** The trace ends with leaving [sync_playwright()], which occurs nowhere
    else in it: the first exit is the last event. *)
Fixpoint exit_last (tr : list Event) : bool :=
  match tr with
  | [] => false
  | ev :: tr' =>
      if is_exit ev then
        match tr' with
        | [] => true
        | _ :: _ => false
        end
      else exit_last tr'
  end.

(** Entering [sync_playwright()] is the first call; when it raises nothing
    else happens, when it returns the run ends by leaving it. *)
Definition driver_released (tr : list Event) : bool :=
  match tr with
  | ApiEv SyncPlaywrightEnter (inl _) :: rest =>
      match rest with
      | [] => true
      | _ :: _ => false
      end
  | ApiEv SyncPlaywrightEnter (inr _) :: rest => exit_last rest
  | _ => false
  end.

(** What may follow a failed call: diagnostics, [browser.close()] and
    leaving [sync_playwright()]. *)
Definition is_cleanup (ev : Event) : bool :=
  is_diagnostic_or_exit ev || is_browser_close ev.

(** After a call has raised, the run only cleans up. *)
Definition fail_fast (tr : list Event) : Prop :=
  forall pre ev post,
    tr = pre ++ ev :: post ->
    failed ev = true ->
    forallb is_cleanup post = true.

Fixpoint fail_fast_check (tr : list Event) : bool :=
  match tr with
  | [] => true
  | ev :: tr' => if failed ev then forallb is_cleanup tr' else fail_fast_check tr'
  end.

Definition failure_of (ev : Event) : option Exn :=
  match ev with
  | ApiEv _ (inl e) => Some e
  | _ => None
  end.

(** The exception of the first call that raised. *)
Fixpoint first_failure (tr : list Event) : option Exn :=
  match tr with
  | [] => None
  | ev :: tr' =>
      match failure_of ev with
      | Some e => Some e
      | None => first_failure tr'
      end
  end.

(** The exception of the last call that raised. *)
Fixpoint last_failure (tr : list Event) : option Exn :=
  match tr with
  | [] => None
  | ev :: tr' =>
      match last_failure tr' with
      | Some e => Some e
      | None => failure_of ev
      end
  end.

(** The number of calls to [browser.close()]. *)
Definition count_close (tr : list Event) : nat :=
  List.length (filter is_browser_close tr).

(** [bounding_box()] returned [None]. *)
Definition box_missing (ev : Event) : bool :=
  match ev with
  | ApiEv (BoundingBox _) (inr None) => true
  | _ => false
  end.

Definition is_mouse (ev : Event) : bool :=
  match ev with
  | ApiEv (MouseMove _ _) _ | ApiEv MouseDown _ | ApiEv MouseUp _ => true
  | _ => false
  end.

(** verify_flow_builder.py 43 *)
Definition drag_and_drop_error : Exn :=
  mkExn "Exception" "Could not find source or target for drag and drop".

(** What a run of verify_flow_builder.py returns, from its trace: the last
    exception raised by a call, else the script's own exception when a box
    was missing, else success. *)
Definition flow_builder_result (tr : list Event) : Exn + unit :=
  match last_failure tr with
  | Some e => inl e
  | None => if existsb box_missing tr then inl drag_and_drop_error else inr tt
  end.

Definition reads_environment (ev : Event) : bool :=
  match ev with
  | SysEv (EnvironLookup _) _ => true
  | _ => false
  end.

Definition reads_clock (ev : Event) : bool :=
  match ev with
  | SysEv TimeTime _ => true
  | _ => false
  end.

(** The lines printed to a stream, in order. *)
Fixpoint printed (file : Stream) (tr : list Event) : list string :=
  match tr with
  | [] => []
  | SysEv (PyPrint f text) _ :: tr' =>
      match f, file with
      | stdout, stdout | stderr, stderr => text :: printed file tr'
      | _, _ => printed file tr'
      end
  | _ :: tr' => printed file tr'
  end.

(** What the handler of verify_login_v2.py prints for the toast texts it
    read: nothing for an empty list, else a header and the texts. *)
Definition toast_report (toasts : list string) : list string :=
  match toasts with
  | [] => []
  | _ :: _ => "Found toast messages:" :: toasts
  end.

(** What the handler prints about the toasts, from the answer to
    [all_inner_texts()]: the report of the texts, or the exception. *)
Fixpoint toast_lines (tr : list Event) : list string :=
  match tr with
  | [] => []
  | ApiEv (AllInnerTexts _) (inl e) :: _ =>
      [("Could not retrieve toast messages: " ++ str_of_exn e)%string]
  | ApiEv (AllInnerTexts _) (inr texts) :: _ => toast_report texts
  | _ :: tr' => toast_lines tr'
  end.

(** The value of [page.url] the run read first. *)
Fixpoint url_read (tr : list Event) : string :=
  match tr with
  | [] => ""
  | SysEv PageUrl url :: _ => url
  | _ :: tr' => url_read tr'
  end.

(** The progress messages of verify_final.py, in the order of the script. *)
Definition final_messages : list string :=
  [ "Registration successful, redirected to login.";
    "Login successful, redirected to dashboard.";
    "Dashboard content verified.";
    "Successfully logged in and verified dashboard." ].

Definition screenshot_succeeded (ev : Event) : bool :=
  match ev with
  | ApiEv (Screenshot _) (inr _) => true
  | _ => false
  end.

Definition is_prefix_of (l full : list string) : Prop :=
  exists k : nat, l = firstn k full.

(** As [healthy], but neither drag-and-drop element is on the page. *)
Definition no_boxes (now : Q) : Sim :=
  {| sim_now := now;
     sim_base_url := None;
     sim_raises := fun _ => None;
     sim_visible := true;
     sim_texts := [];
     sim_url := "http://localhost:3000/dashboard/flows";
     sim_box := None |}.

(** One second after [quarter_to]. *)
Definition next_second : Q := 6800000007 # 4.

(** ** The generated email *)

Lemma append_inv_head :
  forall p s1 s2 : string, (p ++ s1 = p ++ s2)%string -> s1 = s2.
Proof.
  induction p as [|a p IH]; intros s1 s2 H; simpl in H.
  - exact H.
  - injection H as H. exact (IH s1 s2 H).
Qed.

Lemma list_ascii_of_string_append :
  forall s t : string,
    list_ascii_of_string (s ++ t) = (list_ascii_of_string s ++ list_ascii_of_string t)%list.
Proof.
  induction s as [|a s IH]; intros t; simpl.
  - reflexivity.
  - rewrite IH. reflexivity.
Qed.

Lemma append_inv_tail :
  forall s1 s2 t : string, (s1 ++ t = s2 ++ t)%string -> s1 = s2.
Proof.
  intros s1 s2 t H.
  apply (f_equal list_ascii_of_string) in H.
  rewrite !list_ascii_of_string_append in H.
  apply app_inv_tail in H.
  apply (f_equal string_of_list_ascii) in H.
  rewrite !string_of_list_ascii_of_string in H. exact H.
Qed.

Lemma to_int_not_nil :
  forall n : Z, Z.to_int n <> Pos Nil /\ Z.to_int n <> Neg Nil.
Proof.
  intros [|p|p]; simpl; split; try discriminate;
    intros H; injection H as H; exact (Unsigned.to_uint_nonnil p H).
Qed.

(** [str] is injective on ints. *)
Lemma str_of_int_inj :
  forall a b : Z, str_of_int a = str_of_int b -> a = b.
Proof.
  intros a b H. unfold str_of_int in H.
  destruct (to_int_not_nil a) as [Ha1 Ha2].
  destruct (to_int_not_nil b) as [Hb1 Hb2].
  pose proof (NilZero.isi (Z.to_int a) Ha1 Ha2) as Ia.
  pose proof (NilZero.isi (Z.to_int b) Hb1 Hb2) as Ib.
  rewrite H in Ia. rewrite Ia in Ib. injection Ib as Ib.
  apply DecimalZ.to_int_inj. exact Ib.
Qed.

(** Two emails of the login scenarios are equal exactly when the clock was
    read in the same second. *)
Lemma generated_email_same_second :
  forall now1 now2 : Q,
    email (generate_credentials now1) = email (generate_credentials now2)
    <-> int_of_float now1 = int_of_float now2.
Proof.
  intros now1 now2. unfold generate_credentials. cbn [email]. split.
  - intros H. apply append_inv_head, append_inv_tail in H.
    apply str_of_int_inj. exact H.
  - intros ->. reflexivity.
Qed.

Lemma unique_email_same_second :
  forall now1 now2 : Q,
    unique_email now1 = unique_email now2
    <-> int_of_float now1 = int_of_float now2.
Proof.
  intros now1 now2. unfold unique_email. split.
  - intros H. apply append_inv_head, append_inv_tail in H.
    apply str_of_int_inj. exact H.
  - intros ->. reflexivity.
Qed.

(** X1.  Two runs of the login scripts register the same email exactly when
    their clocks were read in the same second; the same holds for the email of
    verify_send_message_ui.py. *)
Theorem emails_equal_iff_same_second :
  forall now1 now2 : Q,
    (email (generate_credentials now1) = email (generate_credentials now2)
     <-> int_of_float now1 = int_of_float now2)
    /\ (unique_email now1 = unique_email now2
        <-> int_of_float now1 = int_of_float now2).
Proof.
  intros now1 now2. split.
  - apply generated_email_same_second.
  - apply unique_email_same_second.
Qed.

(** X2.  The email of a login script and the email of
    verify_send_message_ui.py are never the same, whatever the two clock
    readings: the local parts start with test_user_ and test.user. *)
Theorem email_schemes_never_collide :
  forall now1 now2 : Q,
    email (generate_credentials now1) <> unique_email now2.
Proof.
  intros now1 now2 H. unfold generate_credentials, unique_email in H.
  cbn [email] in H. simpl in H. discriminate H.
Qed.

Lemma count_char_append :
  forall (c : ascii) (s t : string),
    count_char c (s ++ t) = (count_char c s + count_char c t)%nat.
Proof.
  intros c s t. induction s as [|a s IH]; simpl.
  - reflexivity.
  - rewrite IH. lia.
Qed.

Lemma count_char_uint :
  forall (c : ascii) (d : uint),
    (forall digit, In digit (list_ascii_of_string "0123456789") -> digit <> c) ->
    count_char c (NilEmpty.string_of_uint d) = 0%nat.
Proof.
  intros c d Hc.
  assert (Hne : forall a, In a (list_ascii_of_string "0123456789") ->
                          Ascii.eqb a c = false).
  { intros a Ha. apply Ascii.eqb_neq. exact (Hc a Ha). }
  induction d as [|d IH|d IH|d IH|d IH|d IH|d IH|d IH|d IH|d IH|d IH];
    cbn [NilEmpty.string_of_uint count_char];
    [reflexivity|..]; rewrite IH, Hne; try reflexivity; simpl; tauto.
Qed.

(** [str(n)] holds digits and a minus sign only. *)
Lemma count_char_str_of_int :
  forall (c : ascii) (n : Z),
    (forall digit, In digit (list_ascii_of_string "-0123456789") -> digit <> c) ->
    count_char c (str_of_int n) = 0%nat.
Proof.
  intros c n Hc.
  assert (Hd : forall digit, In digit (list_ascii_of_string "0123456789") -> digit <> c).
  { intros digit Hin. apply Hc. right. exact Hin. }
  assert (Hm : Ascii.eqb "-" c = false).
  { apply Ascii.eqb_neq. apply Hc. left. reflexivity. }
  assert (Hz : Ascii.eqb "0" c = false).
  { apply Ascii.eqb_neq. apply Hd. left. reflexivity. }
  assert (Hu : forall d, count_char c (NilZero.string_of_uint d) = 0%nat).
  { intros d. destruct d; try apply (count_char_uint c _ Hd).
    cbn [NilZero.string_of_uint count_char]. rewrite Hz. reflexivity. }
  unfold str_of_int, NilZero.string_of_int.
  destruct (Z.to_int n) as [d|d].
  - apply Hu.
  - cbn [count_char]. rewrite Hm, Hu. reflexivity.
Qed.

(** X3.  Every generated email has exactly one at sign, no space, and ends
    with the domain example.com, whatever the clock reading (also a negative
    one, where [str] gives a minus sign). *)
Theorem generated_emails_are_well_formed :
  forall now : Q,
    (count_char "@" (email (generate_credentials now)) = 1%nat
     /\ count_char " " (email (generate_credentials now)) = 0%nat
     /\ exists local_part,
          email (generate_credentials now) = (local_part ++ "@example.com")%string
          /\ count_char "@" local_part = 0%nat
          /\ local_part <> EmptyString)
    /\ (count_char "@" (unique_email now) = 1%nat
        /\ count_char " " (unique_email now) = 0%nat
        /\ exists local_part,
             unique_email now = (local_part ++ "@example.com")%string
             /\ count_char "@" local_part = 0%nat
             /\ local_part <> EmptyString).
Proof.
  intros now.
  assert (Hat : count_char "@" (str_of_int (int_of_float now)) = 0%nat).
  { apply count_char_str_of_int. intros digit Hin.
    simpl in Hin. intuition (subst; discriminate). }
  assert (Hsp : count_char " " (str_of_int (int_of_float now)) = 0%nat).
  { apply count_char_str_of_int. intros digit Hin.
    simpl in Hin. intuition (subst; discriminate). }
  unfold generate_credentials, unique_email. cbn [email].
  split.
  - split; [|split].
    + rewrite !count_char_append, Hat. reflexivity.
    + rewrite !count_char_append, Hsp. reflexivity.
    + exists ("test_user_" ++ str_of_int (int_of_float now))%string.
      split; [|split].
      * clear. induction "test_user_"%string as [|a p IH]; simpl.
        -- reflexivity.
        -- rewrite IH. reflexivity.
      * rewrite count_char_append, Hat. reflexivity.
      * simpl. discriminate.
  - split; [|split].
    + rewrite !count_char_append, Hat. reflexivity.
    + rewrite !count_char_append, Hsp. reflexivity.
    + exists ("test.user." ++ str_of_int (int_of_float now))%string.
      split; [|split].
      * clear. induction "test.user."%string as [|a p IH]; simpl.
        -- reflexivity.
        -- rewrite IH. reflexivity.
      * rewrite count_char_append, Hat. reflexivity.
      * simpl. discriminate.
Qed.

(** On a clock reading after the epoch, [int] is the floor. *)
Lemma int_of_float_floor :
  forall now : Q, 0 <= now -> int_of_float now = Qfloor now.
Proof.
  intros [n d] H. unfold int_of_float, Qfloor. simpl.
  apply Z.quot_div_nonneg; [|reflexivity].
  unfold Qle in H. simpl in H. lia.
Qed.

Lemma int_of_float_next_second :
  forall now1 now2 : Q,
    0 <= now1 -> now1 + 1 <= now2 ->
    (int_of_float now1 < int_of_float now2)%Z.
Proof.
  intros now1 now2 H0 H1.
  assert (H2 : 0 <= now2).
  { apply Qle_trans with (now1 + 1); [|exact H1].
    apply Qle_trans with now1; [exact H0|].
    rewrite <- (Qplus_0_r now1) at 1. apply Qplus_le_r. discriminate. }
  rewrite (int_of_float_floor now1 H0), (int_of_float_floor now2 H2).
  assert (H3 : inject_Z (Qfloor now1 + 1) <= now2).
  { apply Qle_trans with (now1 + 1); [|exact H1].
    rewrite inject_Z_plus. apply Qplus_le_l. apply Qfloor_le. }
  apply Qfloor_resp_le in H3. rewrite Qfloor_Z in H3. lia.
Qed.

(** X4.  Two runs whose clocks are read at least one second apart, after the
    epoch, register different emails. *)
Theorem runs_a_second_apart_get_distinct_emails :
  forall now1 now2 : Q,
    0 <= now1 ->
    now1 + 1 <= now2 ->
    email (generate_credentials now1) <> email (generate_credentials now2)
    /\ unique_email now1 <> unique_email now2.
Proof.
  intros now1 now2 H0 H1.
  pose proof (int_of_float_next_second now1 now2 H0 H1) as Hlt.
  split; intros H.
  - apply generated_email_same_second in H. lia.
  - apply unique_email_same_second in H. lia.
Qed.

(** X4 on the instants 1700000000.75 and 1700000001.75. *)
Lemma runs_a_second_apart_get_distinct_emails_witness :
  (0 <= quarter_to /\ quarter_to + 1 <= next_second)
  /\ email (generate_credentials quarter_to) <> email (generate_credentials next_second)
  /\ unique_email quarter_to <> unique_email next_second.
Proof.
  assert (H0 : 0 <= quarter_to) by (unfold Qle; simpl; lia).
  assert (H1 : quarter_to + 1 <= next_second) by (unfold Qle; simpl; lia).
  split; [split; assumption|].
  exact (runs_a_second_apart_get_distinct_emails quarter_to next_second H0 H1).
Defined.

Arguments str_of_int : simpl never.
Arguments int_of_float : simpl never.
Arguments Qplus : simpl never.
Arguments Qdiv : simpl never.
Arguments String.append : simpl never.

(** ** How runs compose *)

Section Compose.
Context {W : Type} (env : World W).

Lemma execute_bind :
  forall (A B : Type) (p : Prog A) (f : A -> Prog B) (w : W),
    execute env (bind p f) w =
    match result (execute env p w) with
    | inl e => mkRun (trace (execute env p w)) (final (execute env p w)) (inl e)
    | inr a =>
        let r' := execute env (f a) (final (execute env p w)) in
        mkRun (trace (execute env p w) ++ trace r') (final r') (result r')
    end.
Proof.
  induction p as [a|e|c k IH|s k IH]; intros f w; cbn.
  - destruct (execute env (f a) w); reflexivity.
  - reflexivity.
  - destruct (answer env c w) as [w' r]. cbn. rewrite IH.
    destruct (result (execute env (k r) w')); reflexivity.
  - destruct (observe env s w) as [w' x]. cbn. rewrite IH.
    destruct (result (execute env (k x) w')); reflexivity.
Qed.

Lemma execute_try_except :
  forall (A : Type) (p : Prog A) (h : Exn -> Prog A) (w : W),
    execute env (try_except p h) w =
    match result (execute env p w) with
    | inl e =>
        let r' := execute env (h e) (final (execute env p w)) in
        mkRun (trace (execute env p w) ++ trace r') (final r') (result r')
    | inr a => mkRun (trace (execute env p w)) (final (execute env p w)) (inr a)
    end.
Proof.
  induction p as [a|e|c k IH|s k IH]; intros h w; cbn.
  - reflexivity.
  - destruct (execute env (h e) w); reflexivity.
  - destruct (answer env c w) as [w' r]. cbn. rewrite IH.
    destruct (result (execute env (k r) w')); reflexivity.
  - destruct (observe env s w) as [w' x]. cbn. rewrite IH.
    destruct (result (execute env (k x) w')); reflexivity.
Qed.

Lemma execute_try_finally :
  forall (A : Type) (p : Prog A) (c : Prog unit) (w : W),
    execute env (try_finally p c) w =
    let r := execute env p w in
    let rc := execute env c (final r) in
    mkRun (trace r ++ trace rc) (final rc)
          (match result rc with
           | inl e' => inl e'
           | inr _ => result r
           end).
Proof.
  induction p as [a|e|c0 k IH|s k IH]; intros c w; cbn.
  - rewrite execute_bind. destruct (execute env c w) as [tr wf [e'|[]]]; cbn.
    + reflexivity.
    + rewrite app_nil_r. reflexivity.
  - rewrite execute_bind. destruct (execute env c w) as [tr wf [e'|[]]]; cbn.
    + reflexivity.
    + rewrite app_nil_r. reflexivity.
  - destruct (answer env c0 w) as [w' r]. cbn. rewrite IH. reflexivity.
  - destruct (observe env s w) as [w' x]. cbn. rewrite IH. reflexivity.
Qed.

End Compose.

(** ** The failure handler of verify_login_v2.py *)

Section Handler.
Context {W : Type} (env : World W).

Lemma execute_print_loop :
  forall (h : Exn -> Prog unit) (texts : list string) (w : W),
    exists tr w',
      execute env (try_except (for_each texts (fun text => print stderr text)) h) w
      = mkRun tr w' (inr tt)
      /\ forallb is_diagnostic tr = true
      /\ api_calls tr = [].
Proof.
  intros h texts. induction texts as [|t texts IH]; intros w.
  - exists [], w. repeat split; reflexivity.
  - cbn. destruct (observe env (PyPrint stderr t) w) as [w1 x1]. cbn.
    destruct (IH w1) as (tr & w' & Hrun & Hd & Hc).
    exists (SysEv (PyPrint stderr t) x1 :: tr), w'.
    rewrite Hrun. repeat split; [exact Hd | exact Hc].
Qed.

(** The inner [try] never raises; when reading the toast texts raises, the
    exception is printed. *)
Lemma execute_report_toasts :
  forall (w : W),
    exists tr w',
      execute env report_toasts w = mkRun tr w' (inr tt)
      /\ forallb is_diagnostic tr = true
      /\ forall e2 ev,
           In ev tr ->
           raised (AllInnerTexts (locator role_status_selector)) e2 ev ->
           In (SysEv (PyPrint stderr
                        ("Could not retrieve toast messages: " ++ str_of_exn e2)) tt) tr.
Proof.
  intros w. unfold report_toasts. cbn.
  destruct (respond env (AllInnerTexts (locator role_status_selector)) w)
    as [w1 [e1|toasts]]; cbn.
  - destruct (observe env _ w1) as [w2 []]. cbn.
    eexists _, _. split; [reflexivity|]. split; [reflexivity|].
    intros e2 ev [<-|[<-|[]]] Hr; cbn in Hr.
    + destruct Hr as [_ <-]. right. left. reflexivity.
    + contradiction.
  - assert (Hnone : forall tr : list Event,
               api_calls tr = [] ->
               forall e2 ev, In ev tr ->
                 ~ raised (AllInnerTexts (locator role_status_selector)) e2 ev).
    { induction tr as [|[c r|s x] tr IH]; cbn; intros Hc e2 ev Hin Hr.
      - contradiction.
      - discriminate.
      - destruct Hin as [<-|Hin]; [exact Hr | exact (IH Hc e2 ev Hin Hr)]. }
    destruct toasts as [|t toasts]; cbn.
    + eexists _, _. split; [reflexivity|]. split; [reflexivity|].
      intros e2 ev [<-|[]] Hr. cbn in Hr. contradiction.
    + destruct (observe env _ w1) as [w2 x2]. cbn.
      destruct (observe env _ w2) as [w3 x3]. cbn.
      destruct (execute_print_loop
                  (fun toast_error =>
                     print stderr
                       ("Could not retrieve toast messages: " ++ str_of_exn toast_error))
                  toasts w3) as (tr & w' & Hrun & Hd & Hc).
      cbn in Hrun. rewrite Hrun. cbn.
      eexists _, _. split; [reflexivity|]. split; [cbn; exact Hd|].
      intros e2 ev [<-|[<-|[<-|Hin]]] Hr; cbn in Hr; try contradiction.
      exfalso. exact (Hnone tr Hc e2 ev Hin Hr).
Qed.

Arguments report_toasts : simpl never.

(** The handler always ends by raising the exception it was given. *)
Lemma execute_registration_failed :
  forall (e : Exn) (w : W),
    exists tr w',
      execute env (registration_failed e) w = mkRun tr w' (inl e)
      /\ forallb is_diagnostic tr = true
      /\ forall e2 ev,
           In ev tr ->
           raised (AllInnerTexts (locator role_status_selector)) e2 ev ->
           In (SysEv (PyPrint stderr
                        ("Could not retrieve toast messages: " ++ str_of_exn e2)) tt) tr.
Proof.
  intros e w. unfold registration_failed. cbn.
  destruct (observe env _ w) as [w1 x1]. cbn.
  rewrite execute_bind.
  destruct (execute_report_toasts w1) as (tr & w2 & Hrun & Hd & Hlog).
  rewrite Hrun. cbn.
  destruct (observe env PageUrl w2) as [w3 url]. cbn.
  destruct (observe env _ w3) as [w4 x4]. cbn.
  eexists _, _. split; [reflexivity|]. split.
  - cbn. rewrite forallb_app, Hd. reflexivity.
  - intros e2 ev [<-|Hin] Hr; [cbn in Hr; contradiction|].
    right. apply in_or_app. apply in_app_or in Hin as [Hin|[<-|[<-|[]]]].
    + left. exact (Hlog e2 ev Hin Hr).
    + cbn in Hr. contradiction.
    + cbn in Hr. contradiction.
Qed.

(** The handler inside the script: whatever follows the [try] statement is
    skipped and the cleanup [c] of the enclosing block runs. *)
Lemma execute_failed_registration :
  forall (A : Type) (e : Exn) (k : unit -> Prog A) (c : Prog unit) (w : W),
    exists tr w',
      execute env (try_finally (registration_failed e ;; k tt) c) w =
      mkRun (tr ++ trace (execute env c w')) (final (execute env c w'))
            (match result (execute env c w') with
             | inl e' => inl e'
             | inr _ => inl e
             end)
      /\ forallb is_diagnostic tr = true.
Proof.
  intros A e k c w.
  destruct (execute_registration_failed e w) as (tr & w' & Hrun & Hd & _).
  exists tr, w'. split; [|exact Hd].
  rewrite execute_try_finally, execute_bind, Hrun. reflexivity.
Qed.

End Handler.

Arguments registration_failed : simpl never.

(** ** Symbolic execution of the scripts *)


(** The answers the scripts branch on, and the unit answers. *)
Ltac split_answer x :=
  let T := type of x in
  let T' := eval cbn in T in
  match T' with
  | unit => destruct x
  | bool => destruct x
  | option Box => destruct x
  | _ => idtac
  end.

(** One call of the program: split on the answer of the world. *)
Ltac world_step :=
  match goal with
  | |- context [respond ?env ?c ?w] =>
      let w' := fresh "w" in
      let e := fresh "e" in
      let x := fresh "x" in
      destruct (respond env c w) as [w' [e|x]]; [|split_answer x]
  | |- context [observe ?env ?s ?w] =>
      let w' := fresh "w" in
      let x := fresh "x" in
      destruct (observe env s w) as [w' x]; split_answer x
  | |- context [execute ?env (try_finally (registration_failed ?e ;; ?k) ?c) ?w] =>
      let tr := fresh "tr" in
      let w' := fresh "w" in
      let Hrun := fresh "Hrun" in
      let Hd := fresh "Hdiag" in
      destruct (execute_failed_registration env _ e (fun _ => k) c w) as (tr & w' & Hrun & Hd);
      cbn in Hrun; rewrite Hrun; clear Hrun
  end; cbn.

(** All the paths of a script. *)
Ltac all_paths := cbn; repeat world_step.

(** Events of the handler and observations. *)
Lemma forallb_diagnostic :
  forall (P : Event -> bool),
    (forall ev, is_diagnostic ev = true -> P ev = true) ->
    forall tr, forallb is_diagnostic tr = true -> forallb P tr = true.
Proof.
  intros P HP tr. induction tr as [|ev tr IH]; cbn; [reflexivity|].
  intros H. apply andb_true_iff in H as [H1 H2].
  rewrite (HP ev H1), (IH H2). reflexivity.
Qed.

Lemma existsb_diagnostic :
  forall (P : Event -> bool),
    (forall ev, is_diagnostic ev = true -> P ev = false) ->
    forall tr, forallb is_diagnostic tr = true -> existsb P tr = false.
Proof.
  intros P HP tr. induction tr as [|ev tr IH]; cbn; [reflexivity|].
  intros H. apply andb_true_iff in H as [H1 H2].
  rewrite (HP ev H1), (IH H2). reflexivity.
Qed.

(** Case analysis on a diagnostic event. *)
Ltac diagnostic_cases :=
  let ev := fresh "ev" in
  let c := fresh "c" in
  let r := fresh "r" in
  let s := fresh "s" in
  let x := fresh "x" in
  intros ev; destruct ev as [c r|s x]; [destruct c|destruct s];
  cbn; intros; try discriminate; try reflexivity.

(** ** The screenshot is the last step *)

Lemma screenshot_check_sound_gen :
  forall tr ok,
    screenshot_check ok tr = true ->
    forall pre ev post,
      tr = pre ++ ev :: post ->
      is_screenshot ev = true ->
      ok = true /\
      forallb (fun e => negb (failed e)) pre = true /\
      forallb is_teardown post = true.
Proof.
  induction tr as [|e tr IH]; intros ok Hc pre ev post Heq Hs.
  - destruct pre; discriminate.
  - destruct pre as [|p pre]; simpl in Heq; injection Heq as He Ht; subst.
    + simpl in Hc. rewrite Hs in Hc.
      apply andb_true_iff in Hc as [Hok Hpost]. auto.
    + simpl in Hc. destruct (is_screenshot p) eqn:Hp.
      * apply andb_true_iff in Hc as [Hok Hpost].
        rewrite forallb_app in Hpost. apply andb_true_iff in Hpost as [_ Hpost].
        simpl in Hpost. destruct ev as [c r|s x]; try discriminate.
        destruct c; discriminate.
      * destruct (IH _ Hc pre ev post eq_refl Hs) as (Hok & Hpre & Hpost).
        apply andb_true_iff in Hok as [Hok Hp']. simpl. rewrite Hp', Hpre. auto.
Qed.

Lemma screenshot_check_sound :
  forall tr, screenshot_check true tr = true -> screenshot_last tr.
Proof.
  intros tr Hc pre ev post Heq Hs.
  destruct (screenshot_check_sound_gen tr true Hc pre ev post Heq Hs) as (_ & H1 & H2).
  auto.
Qed.

Lemma screenshot_check_diagnostic :
  forall tr rest,
    forallb is_diagnostic tr = true ->
    screenshot_check false (tr ++ rest) = screenshot_check false rest.
Proof.
  induction tr as [|ev tr IH]; intros rest H; cbn; [reflexivity|].
  cbn in H. apply andb_true_iff in H as [H1 H2].
  replace (is_screenshot ev) with false.
  - apply IH, H2.
  - revert H1. clear. revert ev. diagnostic_cases.
Qed.

Lemma diagnostic_is_not_screenshot :
  forall ev, is_diagnostic ev = true -> is_screenshot ev = false.
Proof. diagnostic_cases. Qed.

Lemma screenshot_ok_all :
  forall (s : Scenario) (W : Type) (env : World W) (w : W),
    screenshot_ok (execute env (script s) w) = true.
Proof.
  intros s W env w. unfold screenshot_ok.
  destruct s; all_paths;
    rewrite ?screenshot_check_diagnostic, ?existsb_app,
      ?(existsb_diagnostic _ diagnostic_is_not_screenshot) by assumption;
    reflexivity.
Qed.

(** C6.  In every scenario the screenshot is the last step of the scenario:
    in any run, against any world, a screenshot is taken only after every
    earlier call succeeded and is followed only by teardown (the report on
    stdout, [browser.close()], leaving [sync_playwright()]); a run that
    succeeds has taken the screenshot; a run that fails has taken none,
    unless what failed is the screenshot call itself or [browser.close()]. *)
Theorem screenshot_is_terminal_action :
  forall (s : Scenario) (W : Type) (env : World W) (w : W),
    screenshot_last (trace (execute env (script s) w))
    /\ (result (execute env (script s) w) = inr tt ->
        existsb is_screenshot (trace (execute env (script s) w)) = true)
    /\ (forall e : Exn,
          result (execute env (script s) w) = inl e ->
          existsb is_screenshot (trace (execute env (script s) w)) = true ->
          existsb failed_at_the_end (trace (execute env (script s) w)) = true).
Proof.
  intros s W env w.
  pose proof (screenshot_ok_all s W env w) as H.
  unfold screenshot_ok in H. apply andb_true_iff in H as [H1 H2].
  split; [|split].
  - apply screenshot_check_sound, H1.
  - intros Hr. rewrite Hr in H2. exact H2.
  - intros e Hr Hs. rewrite Hr, Hs in H2. exact H2.
Qed.

(** C6 on concrete runs: a healthy run of the three login scripts and of the
    flow builder succeeds and takes its screenshot; a run of verify_login.py
    whose registration is not redirected takes none. *)
Lemma screenshot_is_terminal_action_witness :
  (forall s, s <> VerifySendMessageUi ->
             result (execute (sim_world (healthy quarter_past)) (script s) tt) = inr tt)
  /\ (forall s, s <> VerifySendMessageUi ->
        existsb is_screenshot
          (trace (execute (sim_world (healthy quarter_past)) (script s) tt)) = true)
  /\ existsb is_screenshot
       (trace (execute (sim_world (no_redirect quarter_past))
                 verify_login.run_verification tt)) = false.
Proof.
  assert (Hok : forall s, s <> VerifySendMessageUi ->
             result (execute (sim_world (healthy quarter_past)) (script s) tt) = inr tt).
  { intros s Hs; destruct s; try (vm_compute; reflexivity). contradiction. }
  split; [exact Hok|]. split.
  - intros s Hs.
    exact (proj1 (proj2 (screenshot_is_terminal_action s unit
                           (sim_world (healthy quarter_past)) tt)) (Hok s Hs)).
  - vm_compute. reflexivity.
Defined.

(** ** Screenshot paths *)

Lemma screenshot_paths_diagnostic :
  forall tr rest,
    forallb is_diagnostic tr = true ->
    screenshot_paths (tr ++ rest) = screenshot_paths rest.
Proof.
  induction tr as [|ev tr IH]; intros rest H; cbn; [reflexivity|].
  cbn in H. apply andb_true_iff in H as [H1 H2].
  specialize (IH rest H2).
  destruct ev as [c r|s x]; [destruct c|destruct s]; cbn in *;
    try discriminate; exact IH.
Qed.

Lemma screenshots_go_to_artifact_path :
  forall (s : Scenario) (W : Type) (env : World W) (w : W),
    forallb (String.eqb (artifact_path s))
            (screenshot_paths (trace (execute env (script s) w))) = true.
Proof.
  intros s W env w.
  destruct s; all_paths;
    rewrite ?screenshot_paths_diagnostic by assumption; reflexivity.
Qed.

Lemma healthy_run_writes_artifact :
  forall s,
    s <> VerifySendMessageUi ->
    screenshot_paths (trace (execute (sim_world (healthy quarter_past)) (script s) tt))
    = [artifact_path s].
Proof.
  intros s Hs; destruct s; try (vm_compute; reflexivity). contradiction.
Qed.

(** verify_send_message_ui.py never reaches its [page.screenshot] call. *)
Lemma send_message_ui_takes_no_screenshot :
  forall (W : Type) (env : World W) (w : W),
    screenshot_paths (trace (execute env verify_send_message_ui.main w)) = [].
Proof.
  intros W env w. all_paths; reflexivity.
Qed.

(** C7 as stated does not hold: distinct scenarios do not have
    distinct screenshot paths; verify_login.py and verify_final.py write the
    same file. *)
Lemma one_path_per_scenario_counterexample :
  ~ (forall (s1 s2 : Scenario) (p1 p2 : string),
       s1 <> s2 -> writes_to s1 p1 -> writes_to s2 p2 -> p1 <> p2).
Proof.
  intros H.
  apply (H VerifyLogin VerifyFinal
           "jules-scratch/verification/dashboard_after_login.png"
           "jules-scratch/verification/dashboard_after_login.png").
  - discriminate.
  - exists unit, (sim_world (healthy quarter_past)), tt. vm_compute. auto.
  - exists unit, (sim_world (healthy quarter_past)), tt. vm_compute. auto.
  - reflexivity.
Qed.

(** C7, amended.  Each scenario that takes a screenshot writes it to one
    fixed relative path, the same in every run, so a run overwrites the file
    of the runs before it; the paths are not one per scenario: the three
    login scenarios write dashboard_after_login.png and overwrite each
    other's file, the flow builder scenario writes verification.png, and the
    send-message scenario, which stops at its URL wait, writes no file. *)
Theorem screenshot_path_is_fixed :
  forall (s : Scenario) (path : string),
    (writes_to s path <-> path = artifact_path s /\ s <> VerifySendMessageUi)
    /\ artifact_path VerifyLogin = artifact_path VerifyFinal
    /\ artifact_path VerifyLogin = artifact_path VerifyLoginV2
    /\ artifact_path VerifyLogin <> artifact_path VerifyFlowBuilder.
Proof.
  intros s path. split; [split|].
  - intros (W & env & w & Hin). split.
    + pose proof (screenshots_go_to_artifact_path s W env w) as Hall.
      rewrite forallb_forall in Hall. specialize (Hall path Hin).
      apply String.eqb_eq in Hall. symmetry. exact Hall.
    + intros ->. cbn [script] in Hin.
      rewrite send_message_ui_takes_no_screenshot in Hin. exact Hin.
  - intros [-> Hs]. exists unit, (sim_world (healthy quarter_past)), tt.
    rewrite (healthy_run_writes_artifact s Hs). left. reflexivity.
  - repeat split; try reflexivity. discriminate.
Qed.

(** C7 on the flow builder scenario. *)
Lemma screenshot_path_is_fixed_witness :
  writes_to VerifyFlowBuilder "jules-scratch/verification/verification.png"
  /\ ("jules-scratch/verification/verification.png" = artifact_path VerifyFlowBuilder
      /\ VerifyFlowBuilder <> VerifySendMessageUi).
Proof.
  assert (Hw : writes_to VerifyFlowBuilder "jules-scratch/verification/verification.png").
  { apply (proj2 (proj1 (screenshot_path_is_fixed VerifyFlowBuilder
                           "jules-scratch/verification/verification.png"))).
    split; [reflexivity | discriminate]. }
  split; [exact Hw|].
  exact (proj1 (proj1 (screenshot_path_is_fixed VerifyFlowBuilder
                         "jules-scratch/verification/verification.png")) Hw).
Defined.

(** ** Timeouts *)

Lemma explicit_timeouts_in_range :
  forall (s : Scenario) (W : Type) (env : World W) (w : W),
    forallb explicit_timeout_in_range (trace (execute env (script s) w)) = true.
Proof.
  assert (Hd : forall ev, is_diagnostic ev = true -> explicit_timeout_in_range ev = true)
    by diagnostic_cases.
  intros s W env w.
  destruct s; all_paths;
    rewrite ?forallb_app, ?(forallb_diagnostic _ Hd) by assumption; reflexivity.
Qed.

(** C8 as stated does not hold: the flow builder scenario waits for
    the dashboard URL without passing a timeout. *)
Lemma every_wait_has_timeout_counterexample :
  In (ApiEv (ExpectToHaveUrl (url_is "http://localhost:3000/dashboard") None) (inr tt))
     (trace (execute (sim_world (healthy quarter_past)) verify_flow_builder.main tt))
  /\ wait_timeout
       (ApiEv (ExpectToHaveUrl (url_is "http://localhost:3000/dashboard") None) (inr tt))
     = Some None
  /\ forallb wait_is_bounded
       (trace (execute (sim_world (healthy quarter_past)) verify_flow_builder.main tt)) = false.
Proof.
  split; [|split].
  - vm_compute. do 8 right. left. reflexivity.
  - reflexivity.
  - vm_compute. reflexivity.
Qed.

(** C8, amended.  Every timeout a scenario passes to a wait point (a URL
    wait, a visibility wait or a load-state wait) is between 5 and 15 seconds
    inclusive; wait points that pass no timeout exist and wait as long as the
    library's default. *)
Theorem explicit_timeouts_between_5_and_15_seconds :
  forall (s : Scenario) (W : Type) (env : World W) (w : W) (ev : Event) (ms : Z),
    In ev (trace (execute env (script s) w)) ->
    wait_timeout ev = Some (Some ms) ->
    (5000 <= ms <= 15000)%Z.
Proof.
  intros s W env w ev ms Hin Hw.
  pose proof (explicit_timeouts_in_range s W env w) as Hall.
  rewrite forallb_forall in Hall. specialize (Hall ev Hin).
  unfold explicit_timeout_in_range in Hall. rewrite Hw in Hall.
  unfold in_5_to_15_seconds in Hall.
  apply andb_true_iff in Hall as [H1 H2].
  apply Z.leb_le in H1. apply Z.leb_le in H2. lia.
Qed.

(** C8 on the 5 second wait of verify_login_v2.py. *)
Lemma explicit_timeouts_between_5_and_15_seconds_witness :
  let r := execute (sim_world (healthy quarter_past)) verify_login_v2.run_verification tt in
  let ev := ApiEv (ExpectToHaveUrl (url_is "http://localhost:3000/login") (Some 5000%Z))
                  (inr tt) in
  In ev (trace r)
  /\ wait_timeout ev = Some (Some 5000%Z)
  /\ (5000 <= 5000 <= 15000)%Z.
Proof.
  intros r ev.
  assert (Hin : In ev (trace r)) by (vm_compute; do 11 right; left; reflexivity).
  assert (Hw : wait_timeout ev = Some (Some 5000%Z)) by reflexivity.
  split; [exact Hin|]. split; [exact Hw|].
  exact (explicit_timeouts_between_5_and_15_seconds VerifyLoginV2 unit
           (sim_world (healthy quarter_past)) tt ev 5000%Z Hin Hw).
Defined.

(** ** The toast check of verify_login_v2.py *)

Lemma first_toast_failure_unique :
  forall pre ev post e e1 post1,
    raised toast_check e ev ->
    first_toast_failure (pre ++ ev :: post) = Some (e1, post1) ->
    forallb is_diagnostic_or_exit post1 = true ->
    e1 = e /\ post1 = post.
Proof.
  induction pre as [|p pre IH]; intros ev post e e1 post1 Hr Hf Hd.
  - destruct ev as [c [e'|x]|s x]; cbn in Hr; try contradiction.
    destruct Hr as [-> ->]. cbn in Hf. injection Hf as -> ->. auto.
  - assert (Hev : is_diagnostic_or_exit ev = false).
    { destruct ev as [c [e'|x]|s x]; cbn in Hr; try contradiction.
      destruct Hr as [-> ->]. reflexivity. }
    assert (Hbad : forall e0, Some (e0, pre ++ ev :: post) = Some (e1, post1) -> False).
    { intros e0 H0. injection H0 as -> <-.
      rewrite forallb_app in Hd. cbn in Hd. rewrite Hev in Hd.
      rewrite andb_false_r in Hd. discriminate. }
    destruct p as [c [e0|x]|s x]; simpl in Hf.
    + revert Hf. destruct (is_toast_check c); intros Hf.
      * exfalso. exact (Hbad e0 Hf).
      * exact (IH ev post e e1 post1 Hr Hf Hd).
    + exact (IH ev post e e1 post1 Hr Hf Hd).
    + exact (IH ev post e e1 post1 Hr Hf Hd).
Qed.

Lemma first_toast_failure_found :
  forall pre ev post e,
    raised toast_check e ev ->
    first_toast_failure (pre ++ ev :: post) <> None.
Proof.
  induction pre as [|p pre IH]; intros ev post e Hr.
  - destruct ev as [c [e'|x]|s x]; cbn in Hr; try contradiction.
    destruct Hr as [-> ->]. discriminate.
  - destruct p as [c [e0|x]|s x]; simpl;
      try exact (IH ev post e Hr).
    destruct (is_toast_check c); [discriminate | exact (IH ev post e Hr)].
Qed.

Lemma diagnostic_is_diagnostic_or_exit :
  forall ev, is_diagnostic ev = true -> is_diagnostic_or_exit ev = true.
Proof. diagnostic_cases. Qed.

Lemma diagnostic_is_not_sign_in :
  forall ev, is_diagnostic ev = true -> is_sign_in ev = false.
Proof. diagnostic_cases. Qed.

Lemma first_toast_failure_diagnostic :
  forall tr rest,
    forallb is_diagnostic tr = true ->
    first_toast_failure (tr ++ rest) = first_toast_failure rest.
Proof.
  induction tr as [|ev tr IH]; intros rest H; [reflexivity|].
  cbn in H. apply andb_true_iff in H as [H1 H2].
  specialize (IH rest H2).
  destruct ev as [c [e|x]|s x]; simpl; try exact IH.
  destruct c; cbn in H1; try discriminate; exact IH.
Qed.

(** What a run of verify_login_v2.py looks like after a failed toast check. *)
Lemma toast_failure_outcome :
  forall (W : Type) (env : World W) (w : W),
    match first_toast_failure (trace (execute env verify_login_v2.run_verification w)) with
    | Some (e, post) =>
        result (execute env verify_login_v2.run_verification w) = inl e
        /\ forallb is_diagnostic_or_exit post = true
        /\ existsb is_sign_in (trace (execute env verify_login_v2.run_verification w)) = false
    | None => True
    end.
Proof.
  intros W env w. unfold verify_login_v2.run_verification.
  all_paths;
    rewrite ?String.eqb_refl, ?first_toast_failure_diagnostic by assumption;
    cbn; try exact I.
  all: repeat split;
    rewrite ?forallb_app, ?existsb_app,
      ?(forallb_diagnostic _ diagnostic_is_diagnostic_or_exit),
      ?(existsb_diagnostic _ diagnostic_is_not_sign_in) by assumption;
    reflexivity.
Qed.

(** C4.  In verify_login_v2.py, when the check of the success toast raises
    [e] (the toast is not seen within its timeout), the run fails with that
    same [e]; everything the script does after the failed check is
    diagnostics (printing, reading the toast texts, reading the URL) and
    leaving [sync_playwright()]; no login step follows, and the sign-in
    button is never clicked. *)
Theorem toast_timeout_fails_before_login :
  forall (W : Type) (env : World W) (w : W)
         (e : Exn) (pre : list Event) (ev : Event) (post : list Event),
    trace (execute env verify_login_v2.run_verification w) = pre ++ ev :: post ->
    raised toast_check e ev ->
    result (execute env verify_login_v2.run_verification w) = inl e
    /\ forallb is_diagnostic_or_exit post = true
    /\ existsb is_sign_in (trace (execute env verify_login_v2.run_verification w)) = false.
Proof.
  intros W env w e pre ev post Htr Hr.
  pose proof (toast_failure_outcome W env w) as H.
  pose proof (first_toast_failure_found pre ev post e Hr) as Hsome.
  rewrite <- Htr in Hsome.
  destruct (first_toast_failure (trace (execute env verify_login_v2.run_verification w)))
    as [[e1 post1]|] eqn:Hf; [|contradiction].
  destruct H as (Hres & Hpost & Hsign).
  rewrite Htr in Hf.
  destruct (first_toast_failure_unique pre ev post e e1 post1 Hr Hf Hpost) as [-> ->].
  auto.
Qed.

(** C4 on a run in which the toast never shows. *)
Lemma toast_timeout_fails_before_login_witness :
  let r := execute (sim_world (no_toast quarter_past)) verify_login_v2.run_verification tt in
  let ev := ApiEv toast_check (inl timeout_error) in
  (trace r = firstn 10 (trace r) ++ ev :: skipn 11 (trace r)
   /\ raised toast_check timeout_error ev)
  /\ result r = inl timeout_error
  /\ forallb is_diagnostic_or_exit (skipn 11 (trace r)) = true
  /\ existsb is_sign_in (trace r) = false.
Proof.
  intros r ev.
  assert (Htr : trace r = firstn 10 (trace r) ++ ev :: skipn 11 (trace r))
    by (vm_compute; reflexivity).
  assert (Hr : raised toast_check timeout_error ev)
    by (split; reflexivity).
  split; [split; assumption|].
  exact (toast_timeout_fails_before_login unit (sim_world (no_toast quarter_past)) tt
           timeout_error _ ev _ Htr Hr).
Defined.

Lemma check_registration_reads_no_toasts :
  forall (W : Type) (env : World W) (base_url : string) (w : W) (ev : Event) (e2 : Exn),
    In ev (trace (execute env (check_registration base_url) w)) ->
    ~ raised (AllInnerTexts (locator role_status_selector)) e2 ev.
Proof.
  intros W env base_url w ev e2. unfold check_registration.
  all_paths; intros Hin Hr.
  all: repeat (destruct Hin as [<-|Hin];
               [cbn in Hr; try contradiction; destruct Hr as [Hc _]; discriminate Hc|]).
  all: contradiction.
Qed.

(** C10.  In the [try] statement of verify_login_v2.py, when the body raises
    [e], the statement raises that same [e], whatever happens in the handler:
    if reading the toast texts raises [e2], then [e2] is printed to stderr and
    dropped. *)
Theorem handler_reraises_original_exception :
  forall (W : Type) (env : World W) (base_url : string) (w : W) (e : Exn),
    result (execute env (check_registration base_url) w) = inl e ->
    let r := execute env (try_except (check_registration base_url) registration_failed) w in
    result r = inl e
    /\ forall (e2 : Exn) (ev : Event),
         In ev (trace r) ->
         raised (AllInnerTexts (locator role_status_selector)) e2 ev ->
         In (SysEv (PyPrint stderr
                      ("Could not retrieve toast messages: " ++ str_of_exn e2)) tt)
            (trace r).
Proof.
  intros W env base_url w e Hbody r. subst r.
  rewrite execute_try_except, Hbody.
  destruct (execute_registration_failed env e
              (final (execute env (check_registration base_url) w)))
    as (tr & w' & Hrun & _ & Hlog).
  rewrite Hrun. cbn. split; [reflexivity|].
  intros e2 ev Hin Hr. apply in_or_app. right.
  apply in_app_or in Hin as [Hin|Hin].
  - exfalso. exact (check_registration_reads_no_toasts W env base_url w ev e2 Hin Hr).
  - exact (Hlog e2 ev Hin Hr).
Qed.

(** C10 on a run in which the toast never shows and the toast texts cannot
    be read. *)
Lemma handler_reraises_original_exception_witness :
  let env := sim_world (no_toast quarter_past) in
  let base_url := "http://localhost:3000" in
  result (execute env (check_registration base_url) tt) = inl timeout_error
  /\ result (execute env (try_except (check_registration base_url) registration_failed) tt)
     = inl timeout_error
  /\ In (SysEv (PyPrint stderr
                  "Could not retrieve toast messages: Target page, context or browser has been closed")
               tt)
        (trace (execute env (try_except (check_registration base_url) registration_failed) tt)).
Proof.
  intros env base_url.
  assert (Hbody : result (execute env (check_registration base_url) tt) = inl timeout_error)
    by (vm_compute; reflexivity).
  destruct (handler_reraises_original_exception unit env base_url tt timeout_error Hbody)
    as [Hres Hlog].
  split; [exact Hbody|]. split; [exact Hres|].
  apply (Hlog target_closed_error
           (ApiEv (AllInnerTexts (locator role_status_selector))
                  (inl target_closed_error))).
  - vm_compute. do 2 right. left. reflexivity.
  - split; reflexivity.
Defined.

(** ** The contact detail scenario *)

Lemma send_message_ui_skips_creation :
  forall (W : Type) (env : World W) (w : W),
    skips_creation (trace (execute env verify_send_message_ui.main w)) = true.
Proof.
  intros W env w. unfold skips_creation.
  all_paths; reflexivity.
Qed.

Lemma send_message_ui_stops_at_url_wait :
  forall (W : Type) (env : World W) (w : W),
    stops_before_marker (execute env verify_send_message_ui.main w) = true.
Proof.
  intros W env w. unfold stops_before_marker.
  all_paths; reflexivity.
Qed.

(** C5.  The code does not reach the marker on either path.  In every run
    of verify_send_message_ui.py, against every world, the run fails, the
    text "Enviar mensaje directo" is never checked and no screenshot is
    taken.  In the run where every browser call succeeds, with the empty
    state shown (the contact is created through the modal form) and with a
    contact listed (creation is skipped), both paths do converge: on the click
    on the first contact link and on the URL wait of line 61, which raises
    the library's "value must be a string or regular expression"; the
    [finally] closes the browser and that error comes out. *)
Theorem send_message_ui_stops_before_marker :
  (forall (W : Type) (env : World W) (w : W),
     result (execute env verify_send_message_ui.main w) <> inr tt
     /\ existsb checks_marker (trace (execute env verify_send_message_ui.main w)) = false
     /\ existsb is_screenshot (trace (execute env verify_send_message_ui.main w)) = false)
  /\ (result (execute (sim_world (healthy quarter_past)) verify_send_message_ui.main tt)
      = inl callable_error
      /\ api_calls (trace (execute (sim_world (healthy quarter_past))
                             verify_send_message_ui.main tt))
         = open_contacts_calls (unique_email quarter_past)
           ++ IsVisible empty_state :: create_contact_calls ++ contact_link_calls)
  /\ (result (execute (sim_world (with_contacts quarter_past))
                verify_send_message_ui.main tt)
      = inl callable_error
      /\ api_calls (trace (execute (sim_world (with_contacts quarter_past))
                             verify_send_message_ui.main tt))
         = open_contacts_calls (unique_email quarter_past)
           ++ IsVisible empty_state :: contact_link_calls).
Proof.
  split; [|split].
  - intros W env w.
    pose proof (send_message_ui_stops_at_url_wait W env w) as H.
    unfold stops_before_marker in H.
    destruct (result (execute env verify_send_message_ui.main w)) as [e|x];
      [|discriminate].
    apply andb_true_iff in H as [H1 H2].
    apply negb_true_iff in H1. apply negb_true_iff in H2.
    split; [discriminate|]. split; assumption.
  - split; vm_compute; reflexivity.
  - split; vm_compute; reflexivity.
Qed.

(** ** The test identity *)

Lemma diagnostic_fill_matches :
  forall id ev, is_diagnostic ev = true -> fill_matches id ev = true.
Proof. intros id. diagnostic_cases. Qed.

Lemma diagnostic_is_not_fill :
  forall ev, is_diagnostic ev = true -> is_fill ev = false.
Proof. diagnostic_cases. Qed.

Lemma runs_type_identity :
  forall (s : Scenario) (W : Type) (env : World W) (w : W),
    types_identity s (trace (execute env (script s) w)) = true.
Proof.
  intros s W env w.
  destruct s; [|reflexivity| | |]; unfold types_identity; all_paths;
    repeat (rewrite String.eqb_refl; cbn);
    rewrite ?forallb_app, ?(forallb_diagnostic _ (diagnostic_fill_matches _))
      by assumption;
    reflexivity.
Qed.

(** C9.  The identity of a registration scenario is a function of the second
    in which the clock was read: two readings with the same [int(time.time())]
    give the same name, email and password; the name is "Test User" and the
    password is "password123" whatever the reading; and in every run the
    values typed into the name, email and password fields are those of the
    identity generated from the run's clock reading. *)
Theorem identity_determined_by_clock_second :
  forall (s : Scenario) (now1 now2 : Q),
    int_of_float now1 = int_of_float now2 ->
    identity s now1 = identity s now2
    /\ (forall id, identity s now1 = Some id ->
                   name id = "Test User" /\ password id = "password123")
    /\ (forall (W : Type) (env : World W) (w : W),
          types_identity s (trace (execute env (script s) w)) = true).
Proof.
  intros s now1 now2 H. split; [|split].
  - destruct s; cbn; unfold generate_credentials, unique_email;
      rewrite ?H; reflexivity.
  - intros id Hid. destruct s; cbn in Hid; try discriminate;
      injection Hid as <-; split; reflexivity.
  - intros W env w. apply runs_type_identity.
Qed.

(** C9 on two instants of the second 1700000000. *)
Lemma identity_determined_by_clock_second_witness :
  let id := {| name := "Test User";
               email := "test_user_1700000000@example.com";
               password := "password123" |} in
  int_of_float quarter_past = int_of_float quarter_to
  /\ identity VerifyLogin quarter_past = identity VerifyLogin quarter_to
  /\ identity VerifyLogin quarter_past = Some id
  /\ (name id = "Test User" /\ password id = "password123")
  /\ types_identity VerifyLogin
       (trace (execute (sim_world (healthy quarter_past)) (script VerifyLogin) tt)) = true.
Proof.
  intros id.
  assert (H : int_of_float quarter_past = int_of_float quarter_to) by reflexivity.
  assert (Hid : identity VerifyLogin quarter_past = Some id) by reflexivity.
  destruct (identity_determined_by_clock_second VerifyLogin quarter_past quarter_to H)
    as (H1 & H2 & H3).
  split; [exact H|]. split; [exact H1|]. split; [exact Hid|].
  split; [exact (H2 id Hid)|].
  exact (H3 unit (sim_world (healthy quarter_past)) tt).
Defined.

(** C1.  The code does not keep the emails of one second apart: two runs of
    verify_login.py whose clocks are read a half second apart, within the
    same second, register the same email. *)
Theorem same_second_runs_share_email :
  ~ (quarter_past == quarter_to)%Q
  /\ int_of_float quarter_past = 1700000000%Z
  /\ int_of_float quarter_to = 1700000000%Z
  /\ In (Fill (get_by_label "Email" false) "test_user_1700000000@example.com")
        (api_calls (trace (execute (sim_world (healthy quarter_past)) verify_login.run_verification tt)))
  /\ In (Fill (get_by_label "Email" false) "test_user_1700000000@example.com")
        (api_calls (trace (execute (sim_world (healthy quarter_to)) verify_login.run_verification tt)))
  /\ unique_email quarter_past = unique_email quarter_to.
Proof.
  split; [|split; [|split; [|split; [|split]]]].
  - unfold Qeq. simpl. lia.
  - reflexivity.
  - reflexivity.
  - vm_compute. do 5 right. left. reflexivity.
  - vm_compute. do 5 right. left. reflexivity.
  - reflexivity.
Qed.

(** ** Closing the browser *)

(** The scripts that wrap their steps in [try ... finally] close the browser
    on every path once the page is created. *)
Lemma try_finally_scripts_close_browser :
  forall (W : Type) (env : World W) (w : W),
    closes_created_page (trace (execute env verify_flow_builder.main w)) = true
    /\ closes_created_page (trace (execute env verify_send_message_ui.main w)) = true.
Proof.
  intros W env w. unfold closes_created_page.
  split; all_paths; reflexivity.
Qed.

Lemma diagnostic_is_not_browser_close :
  forall ev, is_diagnostic ev = true -> is_browser_close ev = false.
Proof. diagnostic_cases. Qed.

Lemma diagnostic_is_not_failed_close :
  forall ev, is_diagnostic ev = true -> failed ev && is_browser_close ev = false.
Proof.
  intros ev H. rewrite (diagnostic_is_not_browser_close ev H).
  apply andb_false_r.
Qed.

(** The three login scripts call [browser.close()] at the end of a
    successful run and on no failing path. *)
Lemma login_scripts_close_on_success_only :
  forall (s : Scenario) (W : Type) (env : World W) (w : W),
    s = VerifyFinal \/ s = VerifyLogin \/ s = VerifyLoginV2 ->
    closes_on_success_only (execute env (script s) w) = true.
Proof.
  intros s W env w Hs; destruct Hs as [Hs|[Hs|Hs]]; subst s;
    unfold closes_on_success_only;
    all_paths;
    rewrite ?existsb_app,
      ?(existsb_diagnostic _ diagnostic_is_not_browser_close),
      ?(existsb_diagnostic _ diagnostic_is_not_failed_close) by assumption;
    reflexivity.
Qed.

Lemma browser_step_diagnostic :
  forall tr st,
    forallb is_diagnostic tr = true ->
    fold_left browser_step tr st = st.
Proof.
  induction tr as [|ev tr IH]; intros st H; [reflexivity|].
  cbn in H. apply andb_true_iff in H as [H1 H2].
  simpl. rewrite <- (IH st H2) at 2. f_equal.
  revert H1. clear. destruct ev as [c r|s x]; [destruct c|destruct s];
    cbn; intros; try discriminate; reflexivity.
Qed.

Lemma browser_released_all :
  forall (s : Scenario) (W : Type) (env : World W) (w : W),
    browser_released (trace (execute env (script s) w)) = true.
Proof.
  intros s W env w. unfold browser_released, browser_after.
  destruct s; all_paths;
    rewrite ?fold_left_app; cbn;
    rewrite ?browser_step_diagnostic by assumption;
    reflexivity.
Qed.

(** C2.  In every scenario, against every world, the run does not end with
    the browser open: when [launch] returned, the browser is closed when the
    run ends, on success and whatever step raised.  On the paths where
    [browser.close()] is not called, or raises, the browser is closed by
    leaving [sync_playwright()], which every run does last. *)
Theorem browser_closed_on_every_exit_path :
  forall (s : Scenario) (W : Type) (env : World W) (w : W),
    browser_after (trace (execute env (script s) w)) <> BrowserOpen
    /\ (existsb is_launch (trace (execute env (script s) w)) = true ->
        browser_after (trace (execute env (script s) w)) = BrowserClosed).
Proof.
  intros s W env w.
  pose proof (browser_released_all s W env w) as H.
  unfold browser_released in H.
  destruct (browser_after (trace (execute env (script s) w))).
  - split; [discriminate|]. intros Hl. rewrite Hl in H. discriminate H.
  - discriminate H.
  - split; [discriminate | reflexivity].
Qed.

(** C2 on a run of verify_login.py whose registration is not redirected:
    [browser.close()] is not reached and the browser is closed on leaving
    [sync_playwright()]. *)
Lemma browser_closed_on_every_exit_path_witness :
  let r := execute (sim_world (no_redirect quarter_past))
             verify_login.run_verification tt in
  existsb is_launch (trace r) = true
  /\ result r = inl timeout_error
  /\ existsb is_browser_close (trace r) = false
  /\ browser_after (trace r) = BrowserClosed.
Proof.
  intros r.
  assert (Hl : existsb is_launch (trace r) = true) by (vm_compute; reflexivity).
  split; [exact Hl|]. split; [vm_compute; reflexivity|].
  split; [vm_compute; reflexivity|].
  exact (proj2 (browser_closed_on_every_exit_path VerifyLogin unit
                  (sim_world (no_redirect quarter_past)) tt) Hl).
Defined.

(** ** The base URL *)

Lemma prefix_append :
  forall s t : string, String.prefix s (s ++ t) = true.
Proof.
  induction s as [|a s IH]; intros t.
  - destruct t; reflexivity.
  - change (String a s ++ t)%string with (String a (s ++ t)). simpl.
    destruct (ascii_dec a a) as [_|Hn]; [apply IH | contradiction].
Qed.

(** The three login scripts navigate under [BASE_URL], or under the default
    when it is unset. *)
Lemma login_scripts_use_base_url :
  forall (s : Scenario) (W : Type) (env : World W) (w : W),
    s = VerifyFinal \/ s = VerifyLogin \/ s = VerifyLoginV2 ->
    navigates_under (base_url_of (trace (execute env (script s) w)))
                    (trace (execute env (script s) w)) = true.
Proof.
  assert (Hd : forall tr rest,
             forallb is_diagnostic tr = true ->
             target_urls (tr ++ rest) = target_urls rest).
  { induction tr as [|ev tr IH]; intros rest H; [reflexivity|].
    cbn in H. apply andb_true_iff in H as [H1 H2]. specialize (IH rest H2).
    destruct ev as [c r|s x]; [destruct c|destruct s]; cbn in *;
      try discriminate; exact IH. }
  intros s W env w Hs; destruct Hs as [Hs|[Hs|Hs]]; subst s;
    unfold navigates_under, base_url_of;
    all_paths;
    rewrite ?Hd by assumption; cbn;
    rewrite ?prefix_append; reflexivity.
Qed.

(** C3.  The code does not take the origin from [BASE_URL] in every
    scenario: with [BASE_URL] set to another origin, verify_send_message_ui.py
    never reads it and drives http://localhost:3000, while verify_login.py
    drives the origin that was set. *)
Theorem send_message_ui_ignores_base_url :
  let env := sim_world (staging quarter_past) in
  observe env (EnvironLookup "BASE_URL") tt = (tt, Some "http://staging.example.com")
  /\ environ_read "BASE_URL" (trace (execute env verify_send_message_ui.main tt)) = None
  /\ target_urls (trace (execute env verify_send_message_ui.main tt))
     = [ "http://localhost:3000/register";
         "http://localhost:3000/login";
         "http://localhost:3000/dashboard";
         "http://localhost:3000/dashboard/contacts";
         "http://localhost:3000/dashboard/contacts/" ]
  /\ navigates_under "http://staging.example.com"
       (trace (execute env verify_send_message_ui.main tt)) = false
  /\ target_urls (trace (execute env verify_flow_builder.main tt))
     = [ "http://localhost:3000/login";
         "http://localhost:3000/dashboard";
         "http://localhost:3000/dashboard/flows" ]
  /\ target_urls (trace (execute env verify_login.run_verification tt))
     = [ "http://staging.example.com/register";
         "http://staging.example.com/login";
         "http://staging.example.com/dashboard" ].
Proof. vm_compute. repeat split. Qed.

(** ** Leaving [sync_playwright()] *)

Lemma exit_last_sound :
  forall tr,
    exit_last tr = true ->
    exists body,
      tr = body ++ [SysEv SyncPlaywrightExit tt]
      /\ existsb is_exit body = false.
Proof.
  induction tr as [|ev tr IH]; intros H; [discriminate|].
  simpl in H. destruct (is_exit ev) eqn:Hev.
  - destruct tr; [|discriminate].
    destruct ev as [c r|s x]; try discriminate.
    destruct s; try discriminate. destruct x.
    exists []. split; reflexivity.
  - destruct (IH H) as (body & -> & Hb).
    exists (ev :: body). split; [reflexivity|].
    simpl. rewrite Hev, Hb. reflexivity.
Qed.

Lemma exit_last_diagnostic :
  forall tr rest,
    forallb is_diagnostic tr = true ->
    exit_last (tr ++ rest) = exit_last rest.
Proof.
  induction tr as [|ev tr IH]; intros rest H; [reflexivity|].
  cbn in H. apply andb_true_iff in H as [H1 H2].
  simpl. replace (is_exit ev) with false.
  - apply IH, H2.
  - revert H1. clear. revert ev. diagnostic_cases.
Qed.

Lemma driver_released_all :
  forall (s : Scenario) (W : Type) (env : World W) (w : W),
    driver_released (trace (execute env (script s) w)) = true.
Proof.
  intros s W env w.
  destruct s; all_paths;
    rewrite ?exit_last_diagnostic by assumption; reflexivity.
Qed.

(** X5.  Every script releases the Playwright driver: entering
    [sync_playwright()] is the first call of a run; when it raises, nothing
    else is done; when it returns, the run ends by leaving
    [sync_playwright()], on success and on every failure, and leaves it
    once. *)
Theorem playwright_driver_always_released :
  forall (s : Scenario) (W : Type) (env : World W) (w : W),
    (exists e, trace (execute env (script s) w) = [ApiEv SyncPlaywrightEnter (inl e)])
    \/ (exists body,
          trace (execute env (script s) w)
          = ApiEv SyncPlaywrightEnter (inr tt) :: body ++ [SysEv SyncPlaywrightExit tt]
          /\ existsb is_exit body = false).
Proof.
  intros s W env w.
  pose proof (driver_released_all s W env w) as H.
  destruct (trace (execute env (script s) w)) as [|ev rest]; [discriminate|].
  destruct ev as [c r|sc x]; [|discriminate].
  destruct c; try discriminate. destruct r as [e|[]].
  - left. exists e. destruct rest; [reflexivity|discriminate].
  - right. simpl in H. destruct (exit_last_sound rest H) as (body & -> & Hb).
    exists body. split; [reflexivity|exact Hb].
Qed.

(** ** Failing fast *)

Lemma fail_fast_check_sound :
  forall tr, fail_fast_check tr = true -> fail_fast tr.
Proof.
  induction tr as [|a tr IH]; intros Hc pre ev post Heq Hf.
  - destruct pre; discriminate.
  - destruct pre as [|p pre]; simpl in Heq; injection Heq as <- ->.
    + simpl in Hc. rewrite Hf in Hc. exact Hc.
    + simpl in Hc. destruct (failed a).
      * rewrite forallb_app in Hc. apply andb_true_iff in Hc as [_ Hc].
        simpl in Hc. apply andb_true_iff in Hc as [_ Hc]. exact Hc.
      * exact (IH Hc pre ev post eq_refl Hf).
Qed.

Lemma diagnostic_is_cleanup :
  forall ev, is_diagnostic ev = true -> is_cleanup ev = true.
Proof. diagnostic_cases. Qed.

Lemma fail_fast_check_all :
  forall (s : Scenario) (W : Type) (env : World W) (w : W),
    fail_fast_check (trace (execute env (script s) w)) = true.
Proof.
  intros s W env w.
  destruct s; all_paths;
    rewrite ?forallb_app, ?(forallb_diagnostic _ diagnostic_is_cleanup) by assumption;
    reflexivity.
Qed.

(** X6.  No script goes on after a failure, and none retries: in every run,
    whatever follows a call that raised is diagnostics (printing, reading the
    toast texts, reading the URL), [browser.close()] or leaving
    [sync_playwright()]; no navigation, fill, click, expectation or
    screenshot is made after it. *)
Theorem scripts_fail_fast :
  forall (s : Scenario) (W : Type) (env : World W) (w : W)
         (pre : list Event) (ev : Event) (post : list Event),
    trace (execute env (script s) w) = pre ++ ev :: post ->
    failed ev = true ->
    forallb is_cleanup post = true.
Proof.
  intros s W env w pre ev post Htr Hf.
  exact (fail_fast_check_sound _ (fail_fast_check_all s W env w) pre ev post Htr Hf).
Qed.

(** X6 on a run of verify_send_message_ui.py whose registration is not
    redirected: after the failed wait the browser is closed and the driver
    released. *)
Lemma scripts_fail_fast_witness :
  let tr := trace (execute (sim_world (no_redirect quarter_past))
                     (script VerifySendMessageUi) tt) in
  let ev := ApiEv (ExpectToHaveUrl (url_is "http://localhost:3000/login") (Some 15000%Z))
                  (inl timeout_error) in
  (tr = firstn 11 tr ++ ev :: skipn 12 tr /\ failed ev = true)
  /\ skipn 12 tr = [ApiEv BrowserClose (inr tt); SysEv SyncPlaywrightExit tt]
  /\ forallb is_cleanup (skipn 12 tr) = true.
Proof.
  intros tr ev.
  assert (Htr : tr = firstn 11 tr ++ ev :: skipn 12 tr) by (vm_compute; reflexivity).
  assert (Hf : failed ev = true) by reflexivity.
  split; [split; assumption|]. split; [vm_compute; reflexivity|].
  exact (scripts_fail_fast VerifySendMessageUi unit
           (sim_world (no_redirect quarter_past)) tt _ ev _ Htr Hf).
Defined.

(** ** What a run returns *)

(** X7.  A run of a login script (verify_final.py, verify_login.py,
    verify_login_v2.py) returns the exception of the first call that raised,
    and succeeds when no call raised; the handler of verify_login_v2.py never
    replaces it, also when its own [all_inner_texts()] raises. *)
Theorem login_scripts_raise_first_failure :
  forall (W : Type) (env : World W) (w : W),
    let outcome (tr : list Event) : Exn + unit :=
      match first_failure tr with
      | Some e => inl e
      | None => inr tt
      end in
    result (execute env verify_final.run_verification w)
    = outcome (trace (execute env verify_final.run_verification w))
    /\ result (execute env verify_login.run_verification w)
       = outcome (trace (execute env verify_login.run_verification w))
    /\ result (execute env verify_login_v2.run_verification w)
       = outcome (trace (execute env verify_login_v2.run_verification w)).
Proof.
  intros W env w outcome. subst outcome.
  split; [|split]; all_paths; reflexivity.
Qed.

(** X8.  A run of verify_send_message_ui.py returns the exception of the
    last call that raised, and succeeds when no call raised: when a step
    fails and [browser.close()] in the [finally] raises too, the exception of
    [browser.close()] is the one that comes out. *)
Theorem send_message_ui_raises_last_failure :
  forall (W : Type) (env : World W) (w : W),
    result (execute env verify_send_message_ui.main w)
    = match last_failure (trace (execute env verify_send_message_ui.main w)) with
      | Some e => inl e
      | None => inr tt
      end.
Proof.
  intros W env w. all_paths; reflexivity.
Qed.

(** X9.  A run of verify_flow_builder.py returns the exception of the last
    call that raised; when no call raised and a bounding box was missing, it
    returns the script's own "Could not find source or target for drag and
    drop"; else it succeeds.  When a bounding box is missing the mouse is not
    touched and no screenshot is taken. *)
Theorem flow_builder_outcome :
  forall (W : Type) (env : World W) (w : W),
    result (execute env verify_flow_builder.main w)
    = flow_builder_result (trace (execute env verify_flow_builder.main w))
    /\ (existsb box_missing (trace (execute env verify_flow_builder.main w)) = true ->
        existsb is_mouse (trace (execute env verify_flow_builder.main w)) = false
        /\ existsb is_screenshot (trace (execute env verify_flow_builder.main w)) = false).
Proof.
  intros W env w.
  assert (H : result (execute env verify_flow_builder.main w)
              = flow_builder_result (trace (execute env verify_flow_builder.main w))
              /\ implb (existsb box_missing (trace (execute env verify_flow_builder.main w)))
                       (negb (existsb is_mouse
                                (trace (execute env verify_flow_builder.main w)))
                        && negb (existsb is_screenshot
                                   (trace (execute env verify_flow_builder.main w))))
                 = true).
  { unfold flow_builder_result. all_paths; split; reflexivity. }
  destruct H as [H1 H2]. split; [exact H1|].
  intros Hm. rewrite Hm in H2. simpl in H2.
  apply andb_true_iff in H2 as [Ha Hb].
  apply negb_true_iff in Ha. apply negb_true_iff in Hb. auto.
Qed.

(** X9 on a page without the drag-and-drop elements. *)
Lemma flow_builder_outcome_witness :
  let r := execute (sim_world (no_boxes quarter_past)) verify_flow_builder.main tt in
  existsb box_missing (trace r) = true
  /\ result r = inl drag_and_drop_error
  /\ existsb is_mouse (trace r) = false
  /\ existsb is_screenshot (trace r) = false.
Proof.
  intros r.
  assert (Hm : existsb box_missing (trace r) = true) by (vm_compute; reflexivity).
  destruct (flow_builder_outcome unit (sim_world (no_boxes quarter_past)) tt)
    as [Hres Hno].
  destruct (Hno Hm) as [Hmouse Hshot].
  split; [exact Hm|]. split; [|split; assumption].
  fold r in Hres. rewrite Hres. vm_compute. reflexivity.
Defined.

(** ** Closing the browser, on every path *)

(** X10.  verify_flow_builder.py and verify_send_message_ui.py call
    [browser.close()] exactly once when the page was created and not at all
    otherwise: a failure of [launch], [new_context] or [new_page], which
    precede the [try], leaves without closing. *)
Theorem try_finally_scripts_close_once :
  forall (W : Type) (env : World W) (w : W),
    count_close (trace (execute env verify_flow_builder.main w))
    = (if existsb is_page_created (trace (execute env verify_flow_builder.main w))
       then 1 else 0)%nat
    /\ count_close (trace (execute env verify_send_message_ui.main w))
       = (if existsb is_page_created (trace (execute env verify_send_message_ui.main w))
          then 1 else 0)%nat.
Proof.
  intros W env w. unfold count_close.
  split; all_paths; reflexivity.
Qed.

(** X11.  The three login scripts call [browser.close()] at the end of every
    successful run and on no failing path: when a run fails, the browser was
    not closed, unless [browser.close()] itself is what raised. *)
Theorem login_scripts_never_close_after_failure :
  forall (W : Type) (env : World W) (w : W),
    closes_on_success_only (execute env verify_final.run_verification w) = true
    /\ closes_on_success_only (execute env verify_login.run_verification w) = true
    /\ closes_on_success_only (execute env verify_login_v2.run_verification w) = true.
Proof.
  intros W env w. split; [|split].
  - apply (login_scripts_close_on_success_only VerifyFinal). auto.
  - apply (login_scripts_close_on_success_only VerifyLogin). auto.
  - apply (login_scripts_close_on_success_only VerifyLoginV2). auto.
Qed.

(** ** The origin *)

(** X12.  In every run of a login script, every URL the script navigates to
    or waits for is under the origin read from [BASE_URL], and under
    http://localhost:3000 when the variable is unset. *)
Theorem login_scripts_navigate_under_base_url :
  forall (W : Type) (env : World W) (w : W),
    navigates_under (base_url_of (trace (execute env verify_final.run_verification w)))
                    (trace (execute env verify_final.run_verification w)) = true
    /\ navigates_under (base_url_of (trace (execute env verify_login.run_verification w)))
                       (trace (execute env verify_login.run_verification w)) = true
    /\ navigates_under
         (base_url_of (trace (execute env verify_login_v2.run_verification w)))
         (trace (execute env verify_login_v2.run_verification w)) = true.
Proof.
  intros W env w. split; [|split].
  - apply (login_scripts_use_base_url VerifyFinal). auto.
  - apply (login_scripts_use_base_url VerifyLogin). auto.
  - apply (login_scripts_use_base_url VerifyLoginV2). auto.
Qed.

(** X13.  verify_flow_builder.py and verify_send_message_ui.py never read
    the environment, and every URL they navigate to or wait for is under
    http://localhost:3000, in every run; verify_flow_builder.py never reads
    the clock either. *)
Theorem hard_coded_scripts_ignore_environment :
  forall (W : Type) (env : World W) (w : W),
    (existsb reads_environment (trace (execute env verify_flow_builder.main w)) = false
     /\ navigates_under "http://localhost:3000"
          (trace (execute env verify_flow_builder.main w)) = true
     /\ existsb reads_clock (trace (execute env verify_flow_builder.main w)) = false)
    /\ (existsb reads_environment
          (trace (execute env verify_send_message_ui.main w)) = false
        /\ navigates_under "http://localhost:3000"
             (trace (execute env verify_send_message_ui.main w)) = true).
Proof.
  intros W env w. unfold navigates_under.
  split; all_paths; repeat split; reflexivity.
Qed.

(** ** What the scripts print *)

Section Printing.
Context {W : Type} (env : World W).

Lemma execute_print_loop_exact :
  forall (h : Exn -> Prog unit) (texts : list string) (w : W),
    exists w',
      execute env (try_except (for_each texts (fun text => print stderr text)) h) w
      = mkRun (map (fun text => SysEv (PyPrint stderr text) tt) texts) w' (inr tt).
Proof.
  intros h texts. induction texts as [|t texts IH]; intros w.
  - exists w. reflexivity.
  - cbn. destruct (observe env (PyPrint stderr t) w) as [w1 []]. cbn.
    destruct (IH w1) as (w' & Hrun). exists w'. rewrite Hrun. reflexivity.
Qed.

Lemma printed_stderr_lines :
  forall texts rest,
    printed stderr (map (fun text => SysEv (PyPrint stderr text) tt) texts ++ rest)
    = (texts ++ printed stderr rest)%list.
Proof.
  induction texts as [|t texts IH]; intros rest; simpl; [reflexivity|].
  rewrite IH. reflexivity.
Qed.

Lemma printed_stdout_lines :
  forall texts rest,
    printed stdout (map (fun text => SysEv (PyPrint stderr text) tt) texts ++ rest)
    = printed stdout rest.
Proof.
  induction texts as [|t texts IH]; intros rest; simpl; [reflexivity|]. apply IH.
Qed.

Lemma url_read_lines :
  forall texts rest,
    url_read (map (fun text => SysEv (PyPrint stderr text) tt) texts ++ rest)
    = url_read rest.
Proof.
  induction texts as [|t texts IH]; intros rest; simpl; [reflexivity|]. apply IH.
Qed.

(** X14.  The handler of verify_login_v2.py, given the exception [e], prints
    to stderr, in this order: "Registration did not succeed as expected.";
    then, when the toast texts were read, nothing for an empty list and
    "Found toast messages:" followed by each text otherwise, or, when reading
    them raised, "Could not retrieve toast messages: " with the message of
    that exception; then "Current URL is: " with the URL it read.  It prints
    nothing to stdout and raises [e]. *)
Theorem handler_prints_diagnostics :
  forall (e : Exn) (w : W),
    let r := execute env (registration_failed e) w in
    printed stderr (trace r)
    = "Registration did not succeed as expected."
      :: (toast_lines (trace r) ++ [("Current URL is: " ++ url_read (trace r))%string])%list
    /\ printed stdout (trace r) = []
    /\ result r = inl e.
Proof.
  intros e w r. subst r. unfold registration_failed, report_toasts. cbn.
  destruct (observe env _ w) as [w1 []]. cbn.
  destruct (respond env (AllInnerTexts (locator role_status_selector)) w1)
    as [w2 [e1|toasts]]; cbn.
  - destruct (observe env _ w2) as [w3 []]. cbn.
    destruct (observe env PageUrl w3) as [w4 url]. cbn.
    destruct (observe env _ w4) as [w5 []]. cbn.
    repeat split.
  - destruct toasts as [|t toasts]; cbn.
    + destruct (observe env PageUrl w2) as [w3 url]. cbn.
      destruct (observe env _ w3) as [w4 []]. cbn.
      repeat split.
    + destruct (observe env _ w2) as [w3 []]. cbn.
      destruct (observe env _ w3) as [w4 []]. cbn.
      rewrite execute_bind.
      destruct (execute_print_loop_exact
                  (fun toast_error =>
                     print stderr
                       ("Could not retrieve toast messages: " ++ str_of_exn toast_error))
                  toasts w4) as (w5 & Hrun).
      cbn in Hrun. rewrite Hrun. cbn.
      destruct (observe env PageUrl w5) as [w6 url]. cbn.
      destruct (observe env _ w6) as [w7 []]. cbn.
      rewrite printed_stderr_lines, printed_stdout_lines, url_read_lines. cbn.
      repeat split.
Qed.

End Printing.

(** X15.  verify_final.py prints its progress messages to stdout in the
    order of the script and stops at the first failure: what a run prints is
    always a prefix of the four messages; the last one, "Successfully logged
    in and verified dashboard.", is printed exactly when the screenshot call
    returned; a successful run prints all four; nothing goes to stderr. *)
Theorem verify_final_progress_messages :
  forall (W : Type) (env : World W) (w : W),
    let r := execute env verify_final.run_verification w in
    is_prefix_of (printed stdout (trace r)) final_messages
    /\ existsb (String.eqb "Successfully logged in and verified dashboard.")
               (printed stdout (trace r))
       = existsb screenshot_succeeded (trace r)
    /\ printed stderr (trace r) = []
    /\ (result r = inr tt -> printed stdout (trace r) = final_messages).
Proof.
  intros W env w r. subst r. unfold is_prefix_of, final_messages.
  all_paths; (split; [|split; [|split]]);
    try reflexivity; try (intros H; discriminate H);
    first [ exists 0%nat; reflexivity
          | exists 1%nat; reflexivity
          | exists 2%nat; reflexivity
          | exists 3%nat; reflexivity
          | exists 4%nat; reflexivity ].
Qed.

(** X15 on a healthy run. *)
Lemma verify_final_progress_messages_witness :
  let r := execute (sim_world (healthy quarter_past)) verify_final.run_verification tt in
  result r = inr tt /\ printed stdout (trace r) = final_messages.
Proof.
  intros r.
  assert (H : result r = inr tt) by (vm_compute; reflexivity).
  split; [exact H|].
  exact (proj2 (proj2 (proj2 (verify_final_progress_messages unit
                                (sim_world (healthy quarter_past)) tt))) H).
Defined.
